(** * ann-benchmarks reporting scripts: data_export.py and plot.py

    A shallow embedding of the two entry scripts of the repository
    (src/ann-benchmarks/data_export.py and src/ann-benchmarks/plot.py) and of
    the parts of the [ann_benchmarks] package they call, followed by the
    properties of the specification that concern them.

    Python dictionaries keep their insertion order, and that order is
    observable here (the CSV header is [list(dfs[0].keys())], the comparison
    plots are written in the order of [grouped_algos.items()]), so they are
    association lists.  The file system is a finite map from paths to
    contents; whether the operating system opens a file or makes a
    directory, and whether matplotlib accepts a scale and saves a figure,
    is asked of parameters, and a refusal is the exception the script ends
    with.  Metric values are Python floats; they are only compared and
    averaged, and are modelled as rationals.  The key by which [create_plot]
    sorts its lines is a numpy float that can be [nan], and stays
    abstract. *)

From stdpp Require Import base list strings gmap.
From Stdlib Require Import Ascii QArith Qminmax Lqa Sorted.

Local Open Scope string_scope.
Local Open Scope list_scope.

(** ** Python values and dictionaries *)

(** What a [ValueError] of the two scripts complains of. *)
Inductive value_error :=
| FieldsNotInFieldnames (wrong_fields : list string)
    (* csv.DictWriter: "dict contains fields not in fieldnames: " and the
       reprs of these fields, joined by ", " in the order in which Python
       iterates over their set *)
| NotAFloat (text : string)
    (* float(text): "could not convert string to float: " and repr(text) *)
| UnknownScale (name : string).
    (* matplotlib, ax.set_xscale(name) *)

(** The exceptions the two scripts can end with. *)
Inductive exn :=
| ValueError (why : value_error)
| IndexError                     (* x_scale[0] on the empty string *)
| KeyError (key : string)        (* linestyles[algo] *)
| OSError (path : string)        (* open(path, "w"), os.makedirs(path) *)
| ArgumentTypeError (msg : string) (* plot.py, [directory_path] *)
| Exception (msg : string)       (* plot.py: [raise Exception("Nothing to plot")] *)
| LibraryError (who : string)    (* raised inside a drawing call of matplotlib *)
| CollaboratorError (who : string). (* raised inside an imported function *)

(** How a script ends. *)
Inductive outcome :=
| Done
| Raised (e : exn).

(** The scalar values found in a result dictionary. *)
Inductive pyval :=
| PStr (s : string)
| PInt (z : Z)
| PFloat (q : Q).

Module PyDict.

(** [dict]: keys in insertion order. *)
Definition dict (V : Type) := list (string * V).

Definition keys {V} (d : dict V) : list string := map fst d.

(** [d.get(k)] *)
Fixpoint get {V} (d : dict V) (k : string) : option V :=
  match d with
  | [] => None
  | (k', v) :: d' => if String.eqb k' k then Some v else get d' k
  end.

(** [d[k] = v]: an existing key keeps its place, a new key goes last. *)
Fixpoint set {V} (d : dict V) (k : string) (v : V) : dict V :=
  match d with
  | [] => [(k, v)]
  | (k', v') :: d' =>
      if String.eqb k' k then (k, v) :: d' else (k', v') :: set d' k v
  end.

(** [k in d] *)
Definition mem {V} (d : dict V) (k : string) : bool :=
  match get d k with Some _ => true | None => false end.

End PyDict.

(** A computed result row: the dictionary yielded by
    [compute_metrics_all_runs]. *)
Definition record := PyDict.dict pyval.

(** Results of a computation that can raise. *)
Definition result (A : Type) : Type := exn + A.

Definition ret {A} (a : A) : result A := inr a.
Definition raise {A} (e : exn) : result A := inl e.

Definition bind {A B} (m : result A) (k : A -> result B) : result B :=
  match m with
  | inl e => inl e
  | inr a => k a
  end.

Notation "'do' x <- m 'in' k" := (bind m (fun x => k))
  (at level 10, x name, m at level 100, k at level 200).

(** ** The file system *)

(** A CSV file as the list of the rows handed to the writer, oldest first.
    The textual rendering of a cell is the csv module's business. *)
Definition csvfile := list (list pyval).

(** ** data_export.py *)

Module DataExport.

Record filesystem := {
  dirs : gset string;
  files : gmap string csvfile
}.

(** [os.path.exists] *)
Definition path_exists (fs : filesystem) (p : string) : bool :=
  bool_decide (p ∈ dirs fs) || bool_decide (is_Some (files fs !! p)).

(** [ensure_reports_dir], lines 15-17. *)
Definition ensure_reports_dir (fs : filesystem) : filesystem :=
  if negb (path_exists fs "reports")
  then {| dirs := {["reports"]} ∪ dirs fs; files := files fs |}
  else fs.

(** [csv.DictWriter] as line 54 builds it: [restval] and [extrasaction]
    keep their defaults, [""] and ["raise"]. *)
Record DictWriter := {
  fieldnames : list string;
  restval : pyval;
  extrasaction_raise : bool
}.

Definition mkDictWriter (names : list string) : DictWriter :=
  {| fieldnames := names; restval := PStr ""; extrasaction_raise := true |}.

(** [rowdict.keys() - self.fieldnames] *)
Definition wrong_fields (w : DictWriter) (rowdict : record) : list string :=
  filter (fun k => k ∉ fieldnames w) (PyDict.keys rowdict).

(** [(rowdict.get(key, self.restval) for key in self.fieldnames)] *)
Definition to_row (w : DictWriter) (rowdict : record) : list pyval :=
  map (fun key => default (restval w) (PyDict.get rowdict key)) (fieldnames w).

(** [DictWriter._dict_to_list] *)
Definition dict_to_list (w : DictWriter) (rowdict : record) : result (list pyval) :=
  if extrasaction_raise w && negb (bool_decide (wrong_fields w rowdict = []))
  then raise (ValueError (FieldsNotInFieldnames (wrong_fields w rowdict)))
  else ret (to_row w rowdict).

(** [writer.writeheader()] *)
Definition writeheader (w : DictWriter) (f : csvfile) : csvfile :=
  f ++ [map PStr (fieldnames w)].

(** [writer.writerow(res)] *)
Definition writerow (w : DictWriter) (res : record) (f : csvfile) : result csvfile :=
  do row <- dict_to_list w res in ret (f ++ [row]).

(** Lines 56-57.  The rows written before an exception stay in the file:
    the [with] block closes it on the way out. *)
Fixpoint writerows (w : DictWriter) (dfs : list record) (f : csvfile)
  : csvfile * outcome :=
  match dfs with
  | [] => (f, Done)
  | res :: rest =>
      match writerow w res f with
      | inl e => (f, Raised e)
      | inr f' => writerows w rest f'
      end
  end.

Section Main.

(** What the script imports from [ann_benchmarks]; none of it is defined
    in the two scripts, so it is taken as given.  [run] stands for the
    [(properties, h5 group)] pairs of the results store. *)
Variable run : Type.
Variable dataset : Type.
(** [load_all_results(dataset_name, batch_mode=True)], as a list. *)
Variable load_all_results : string -> list run.
(** [get_dataset(dataset_name)[0]]; [None] when it raises. *)
Variable get_dataset : string -> option dataset.
(** [list(compute_metrics_all_runs(dataset, results, recompute))];
    [None] when it raises. *)
Variable compute_metrics_all_runs :
  dataset -> list run -> bool -> option (list record).

(** [args.recompute], and [args.output] as lines 29-38 leave it. *)
Variable recompute : bool.
Variable output : string.
(** Whether [open(path, "w", newline="")] of line 52 opens the file on a
    given file system.  The operating system decides: it refuses when the
    directory of the path is missing or is a regular file, when the path
    names a directory, when the process may not write there. *)
Variable can_open : filesystem -> string -> bool.

(** Lines 48-50: tag every result with the dataset and append it. *)
Definition tag_results (dataset_name : string) (results : list record)
  : list record :=
  map (fun res => PyDict.set res "dataset" (PStr dataset_name)) results.

(** The body of the loop of line 42. *)
Definition visit_dataset (dataset_name : string) (dfs : list record)
  : result (list record) :=
  if (0 <? length (load_all_results dataset_name))%nat then
    let results := load_all_results dataset_name in
    match get_dataset dataset_name with
    | None => raise (CollaboratorError "get_dataset")
    | Some ds =>
        match compute_metrics_all_runs ds results recompute with
        | None => raise (CollaboratorError "compute_metrics_all_runs")
        | Some results => ret (dfs ++ tag_results dataset_name results)
        end
    end
  else ret dfs.

(** The records one dataset contributes: none without stored runs. *)
Inductive yields (d : string) : list record -> Prop :=
| yields_nothing :
    load_all_results d = [] -> yields d []
| yields_results ds results :
    load_all_results d <> [] ->
    get_dataset d = Some ds ->
    compute_metrics_all_runs ds (load_all_results d) recompute = Some results ->
    yields d (tag_results d results).

(** Lines 41-50. *)
Fixpoint collect (datasets : list string) (dfs : list record)
  : result (list record) :=
  match datasets with
  | [] => ret dfs
  | dataset_name :: rest =>
      do dfs' <- visit_dataset dataset_name dfs in collect rest dfs'
  end.

(** Lines 51-57.  When [open] raises, nothing is written; once the file
    is open it is truncated, and holds what the writer was given. *)
Definition write_table (dfs : list record) (fs : filesystem)
  : filesystem * outcome :=
  match dfs with
  | [] => (fs, Done)
  | first :: _ =>
      if can_open fs output then
        let names := PyDict.keys first in
        let writer := mkDictWriter names in
        let '(f, out) := writerows writer dfs (writeheader writer []) in
        ({| dirs := dirs fs; files := <[output := f]> (files fs) |}, out)
      else (fs, Raised (OSError output))
  end.

(** The script, lines 19-57; [DATASETS] is [list(DATASETS.keys())]. *)
Definition main (DATASETS : list string) (fs : filesystem)
  : filesystem * outcome :=
  let fs := ensure_reports_dir fs in
  match collect DATASETS [] with
  | inl e => (fs, Raised e)
  | inr dfs => write_table dfs fs
  end.

End Main.

End DataExport.

(** ** The metrics engine ([ann_benchmarks.plotting.metrics] and [utils]) *)

(** Strict order on metric values, as a boolean. *)
Definition Qltb (a b : Q) : bool := negb (Qle_bool b a).

Fixpoint Qsum (l : list Q) : Q :=
  match l with
  | [] => 0
  | x :: l' => x + Qsum l'
  end.

(** The mean of a sample; undefined on the empty one. *)
Definition mean (l : list Q) : option Q :=
  match l with
  | [] => None
  | _ => Some (Qsum l / inject_Z (Z.of_nat (length l)))
  end.

Module Metrics.

(** Modelled from the spec: which way a metric improves (section 4.1, the
    registry). *)
Inductive orientation :=
| HigherIsBetter
| LowerIsBetter.

(** An entry of the registry [all_metrics], as plot.py reads it:
    [xm["description"]], [xm["lim"]] when present, and the orientation the
    frontier needs. *)
Record metric_entry := {
  description : string;
  better_when : orientation;
  lim : option (Q * Q)
}.

(** Modelled from the spec: the run records of the results store (section
    3), whose definition lies in [ann_benchmarks.results], outside the two
    scripts.  The raw arrays hold one entry per query; the timing and the
    distance-computation counter may be missing from a record. *)
Record RunRecord := {
  run_algorithm : string;
  run_parameters : string;
  run_neighbors : list (list nat);
  run_distances : list (list Q);
  run_times : option (list Q);
  run_distcomps : option (list Q)
}.

(** Modelled from the spec: the ground truth of a dataset (section 3),
    the true neighbours of each query and their distances, nearest first. *)
Record GroundTruth := {
  true_neighbors : list (list nat);
  true_distances : list (list Q)
}.

(** What the computation of one metric on one record comes to. *)
Inductive metric_result :=
| Value (v : Q)
| MissingInput     (* the record lacks what the metric needs *)
| Malformed.       (* array lengths disagree with the query count *)

(** Modelled from the spec: a returned neighbour is correct when its
    distance is at most the k-th true distance plus epsilon; its index
    plays no part (section 4.1, k-nn). *)
Definition counts_as_correct (epsilon kth : Q) (returned : nat * Q) : bool :=
  Qle_bool (snd returned) (kth + epsilon).

(** Modelled from the spec: the correct ones among the first [k] returned
    neighbours of one query. *)
Definition hits (k : nat) (epsilon kth : Q) (returned : list (nat * Q)) : nat :=
  length (List.filter (counts_as_correct epsilon kth) (take k returned)).

(** Modelled from the spec: the recall of one query, [None] when the
    ground truth has no k-th neighbour. *)
Definition query_recall (k : nat) (epsilon : Q)
    (truth : list Q) (returned : list (nat * Q)) : option Q :=
  match k, truth !! (k - 1)%nat with
  | S _, Some kth =>
      Some (inject_Z (Z.of_nat (hits k epsilon kth returned))
            / inject_Z (Z.of_nat k))
  | _, _ => None
  end.

(** Modelled from the spec: the raw arrays of a record have one row per
    query of the ground truth, and neighbours and distances go in pairs. *)
Definition equal_lengths (R : RunRecord) (G : GroundTruth) : bool :=
  bool_decide (length (run_neighbors R) = length (true_distances G))
  && bool_decide (length (run_distances R) = length (true_distances G))
  && bool_decide (map length (run_neighbors R) = map length (run_distances R)).


(** Modelled from the spec: recall at k (section 4.1), the per-query
    fraction of correct neighbours averaged over the queries. *)
Definition knn (k : nat) (epsilon : Q) (R : RunRecord) (G : GroundTruth)
  : metric_result :=
  if equal_lengths R G then
    let returned := zip_with zip (run_neighbors R) (run_distances R) in
    match mapM (fun '(truth, ret) => query_recall k epsilon truth ret)
               (zip (true_distances G) returned) with
    | Some recalls =>
        match mean recalls with
        | Some v => Value v
        | None => Malformed
        end
    | None => Malformed
    end
  else Malformed.

(** Modelled from the spec: queries per second, [1 / mean(times)]. *)
Definition qps (R : RunRecord) : metric_result :=
  match run_times R with
  | None => MissingInput
  | Some times =>
      match mean times with
      | Some m => if Qeq_bool m 0 then Malformed else Value (/ m)
      | None => Malformed
      end
  end.

(** Modelled from the spec: distance computations per query, absent when
    the record has no counter. *)
Definition distcomp (R : RunRecord) : metric_result :=
  match run_distcomps R with
  | None => MissingInput
  | Some counts =>
      match mean counts with
      | Some m => Value m
      | None => Malformed
      end
  end.

(** Modelled from the spec: the names of the registry, in its order. *)
Definition metric_names : list string := ["k-nn"; "qps"; "distcomp"].

(** Modelled from the spec: [computeMetric], the dispatch on the registry
    (section 4.1). *)
Definition computeMetric (name : string) (k : nat) (epsilon : Q)
    (R : RunRecord) (G : GroundTruth) : metric_result :=
  if String.eqb name "k-nn" then knn k epsilon R G
  else if String.eqb name "qps" then qps R
  else if String.eqb name "distcomp" then distcomp R
  else MissingInput.

(** Modelled from the spec: the metric record of a run (section 3): the
    algorithm, its parameters and the metrics that could be computed. *)
Record MetricRecord := {
  algorithm : string;
  parameters : string;
  metric_values : PyDict.dict Q
}.

(** Modelled from the spec: every registered metric the record supports;
    a missing input leaves the metric out, a malformed array drops the
    record ([None]). *)
Fixpoint compute_supported (names : list string) (k : nat) (epsilon : Q)
    (R : RunRecord) (G : GroundTruth) : option (PyDict.dict Q) :=
  match names with
  | [] => Some []
  | name :: rest =>
      match computeMetric name k epsilon R G with
      | Malformed => None
      | MissingInput => compute_supported rest k epsilon R G
      | Value v =>
          d ← compute_supported rest k epsilon R G; Some ((name, v) :: d)
      end
  end.

(** Modelled from the spec: the metric record of one run, [None] when the
    run is malformed. *)
Definition metric_record (k : nat) (epsilon : Q) (G : GroundTruth)
    (R : RunRecord) : option MetricRecord :=
  d ← compute_supported metric_names k epsilon R G;
  Some {| algorithm := run_algorithm R;
          parameters := run_parameters R;
          metric_values := d |}.

(** Modelled from the spec: [computeAllMetricsForRuns] (section 4.1); a
    malformed record is skipped and the batch goes on.  The cache returns
    what a computation returns and is left out. *)
Definition computeAllMetricsForRuns (k : nat) (epsilon : Q) (G : GroundTruth)
    (runs : list RunRecord) : list MetricRecord :=
  omap (metric_record k epsilon G) runs.

(** Modelled from the spec: one more record for the group of its
    algorithm; a new algorithm opens a group. *)
Definition append_to_group (groups : PyDict.dict (list MetricRecord))
    (r : MetricRecord) : PyDict.dict (list MetricRecord) :=
  PyDict.set groups (algorithm r)
    (default [] (PyDict.get groups (algorithm r)) ++ [r]).

(** Modelled from the spec: [compute_metrics], which plot.py imports from
    [ann_benchmarks.plotting.utils]: the metric records of the loaded runs,
    grouped by algorithm (section 2, Plotter). *)
Definition compute_metrics (k : nat) (epsilon : Q) (G : GroundTruth)
    (results : list RunRecord) : PyDict.dict (list MetricRecord) :=
  fold_left append_to_group (computeAllMetricsForRuns k epsilon G results) [].

End Metrics.

(** ** The frontier reducer ([create_pointset]) *)

Module Reducer.

Import Metrics.

Record point := {
  px : Q;
  py : Q;
  plabel : string
}.

(** Modelled from the spec: [better o a b], value [a] is strictly better
    than value [b] on an axis of orientation [o] (section 4.2, step 2). *)
Definition better (o : orientation) (a b : Q) : bool :=
  match o with
  | HigherIsBetter => Qltb b a
  | LowerIsBetter => Qltb a b
  end.

(** Modelled from the spec: [A] dominates [B] when it is at least as good
    on both axes and strictly better on one (section 4.2, step 2). *)
Definition dominates (ox oy : orientation) (A B : point) : bool :=
  negb (better ox (px B) (px A)) && negb (better oy (py B) (py A))
  && (better ox (px A) (px B) || better oy (py A) (py B)).

(** Modelled from the spec: how a later point [q] of the frontier stands
    to an earlier one [p] (section 8, frontier monotonicity): x moves
    strictly one way, [p] having the better x, and y does not get worse. *)
Definition follows (ox oy : orientation) (p q : point) : Prop :=
  better ox (px p) (px q) = true /\ better oy (py p) (py q) = false.

(** Modelled from the spec: step 1, the records that have both metrics,
    as points. *)
Definition project (xn yn : string) (data : list MetricRecord) : list point :=
  omap (fun r =>
          x ← PyDict.get (metric_values r) xn;
          y ← PyDict.get (metric_values r) yn;
          Some {| px := x; py := y; plabel := parameters r |}) data.

(** Modelled from the spec: the order of the sweep (step 3): by x, and at
    equal x the better y first.  The sweep starts from the best x, as the
    scenario of section 8 needs to keep its three points; with the
    orientation of x turned round it starts from the worst. *)
Definition sweeps_before (ox oy : orientation) (p q : point) : bool :=
  if better ox (px p) (px q) then true
  else if better ox (px q) (px p) then false
  else negb (better oy (py q) (py p)).

Fixpoint insert_point (ox oy : orientation) (p : point) (l : list point)
  : list point :=
  match l with
  | [] => [p]
  | q :: l' =>
      if sweeps_before ox oy p q then p :: q :: l'
      else q :: insert_point ox oy p l'
  end.

Fixpoint sort_points (ox oy : orientation) (l : list point) : list point :=
  match l with
  | [] => []
  | p :: l' => insert_point ox oy p (sort_points ox oy l')
  end.

(** Modelled from the spec: the sweep (step 3): a point is retained only
    if its y improves on the best retained so far. *)
Fixpoint sweep (oy : orientation) (best : option Q) (l : list point)
  : list point :=
  match l with
  | [] => []
  | p :: l' =>
      match best with
      | None => p :: sweep oy (Some (py p)) l'
      | Some b =>
          if better oy (py p) b then p :: sweep oy (Some (py p)) l'
          else sweep oy best l'
      end
  end.

(** Modelled from the spec: the frontier of a point cloud, in the order of
    the sweep. *)
Definition frontier (ox oy : orientation) (points : list point) : list point :=
  sweep oy None (sort_points ox oy points).

(** Modelled from the spec: step 4, the frontier and the raw points. *)
Record pointset := {
  frontier_points : list point;
  all_points : list point
}.

Section WithRegistry.

(** The registry [all_metrics] of [ann_benchmarks.plotting.metrics],
    on the names the argument parser lets through
    ([choices=metrics.keys()], plot.py lines 139 and 142). *)
Variable metrics : string -> metric_entry.

(** Modelled from the spec: [create_pointset(data, xn, yn)], which
    plot.py imports from [ann_benchmarks.plotting.utils] (section 4.2). *)
Definition create_pointset (data : list MetricRecord) (xn yn : string)
  : pointset :=
  let points := project xn yn data in
  {| frontier_points :=
       frontier (better_when (metrics xn)) (better_when (metrics yn)) points;
     all_points := points |}.

End WithRegistry.

End Reducer.

(** ** plot.py *)

Module Plot.

Import Metrics Reducer.

(** The namespace [parser.parse_args()] returns, lines 126-159, without
    the arguments that only pick colours and markers or are not read. *)
Record Args := {
  dataset : string;
  count : Z;
  output : option string;
  outputdir : string;
  algo : option string;
  x_axis : string;
  y_axis : string;
  x_scale : string;
  y_scale : string;
  raw : bool;
  batch : bool;
  recompute : bool
}.

(** Python's truth value of an optional string argument: [None] and the
    empty string are false. *)
Definition truthy (o : option string) : bool :=
  match o with
  | Some s => negb (String.eqb s "")
  | None => false
  end.

(** [algo.split("-")[0]] *)
Fixpoint split_base (s : string) : string :=
  match s with
  | EmptyString => EmptyString
  | String c rest =>
      if Ascii.eqb c "-"%char then EmptyString else String c (split_base rest)
  end.

(** A line of the figure: [plt.plot(xs, ys, label=algo)], and the faded
    line of the raw points under [--raw]. *)
Record curve := {
  label : string;
  line : list (Q * Q);
  faded : option (list (Q * Q))
}.

(** What [plt.savefig] is given: lines and axes.  Colours, markers and
    ticks are left out. *)
Record figure := {
  curves : list curve;
  xlabel : string;
  ylabel : string;
  xscale : string;
  yscale : string;
  xlim : option (Q * Q);
  ylim : option (Q * Q)
}.

Definition coords (l : list point) : list (Q * Q) :=
  map (fun p => (px p, py p)) l.

Definition Qmin_list (l : list Q) : Q := foldr Qmin (hd 0 l) l.
Definition Qmax_list (l : list Q) : Q := foldr Qmax (hd 0 l) l.

(** One figure saved under one path. *)
Definition saved := (string * figure)%type.

Section Script.

(** The registry, as in [Reducer]. *)
Variable metrics : string -> metric_entry.
(** numpy's floats: [nan] and the infinities are among them. *)
Variable float : Type.
(** [-np.log(np.array(ys)).mean()], line 28; logarithms are numpy's, and
    the mean of no value at all is [nan]. *)
Variable neg_mean_log : list Q -> float.
(** [sorted(l, key=key)], line 32.  Python returns the elements of [l] in
    another order; which one is settled by the keys, and among keys that do
    not compare ([nan]) by the steps of its sorting algorithm. *)
Variable sorted_by :
  (string -> float) -> forall l : list string, {l' : list string | l' ≡ₚ l}.
(** The values of [linestyles]: a colour, its faded version, a line style
    and a marker. *)
Variable style : Type.
(** [float(s)]; [None] when it raises [ValueError]. *)
Variable float_of_string : string -> option float.
(** The names that [ax.set_xscale(name)] accepts without further
    arguments; matplotlib raises [ValueError] on any other. *)
Variable known_scale : string -> bool.
(** What matplotlib makes of the figure: [true] when
    [plt.savefig(fn_out, ...)], line 97, draws it and writes the file;
    [false] when an exception is raised there: on a path that cannot be
    written, on a figure that matplotlib cannot draw, under the scale
    function of line 58 for a scale like [a0].  The figure is drawn at
    [plt.savefig]; the calls of matplotlib before it record lines, labels
    and limits. *)
Variable savefig_ok : string -> figure -> bool.

(** Line 36 in the loop of line 32: [linestyles[algo]] for one algorithm
    after the other; the first one without a line style raises [KeyError]. *)
Fixpoint lookup_styles (linestyles : PyDict.dict style) (order : list string)
  : result unit :=
  match order with
  | [] => ret tt
  | algo :: rest =>
      match PyDict.get linestyles algo with
      | None => raise (KeyError algo)
      | Some _ => lookup_styles linestyles rest
      end
  end.

(** Lines 55-76: [x_scale[0]], then [float(x_scale[1:])] for a scale of
    the type [a3], and [ax.set_xscale(x_scale)] for the others. *)
Definition set_xscale (x_scale : string) : result unit :=
  match x_scale with
  | EmptyString => raise IndexError
  | String c rest =>
      if Ascii.eqb c "a" then
        match float_of_string rest with
        | None => raise (ValueError (NotAFloat rest))
        | Some alpha => ret tt
        end
      else if known_scale x_scale then ret tt
      else raise (ValueError (UnknownScale x_scale))
  end.

(** Lines 27 and 33: [create_pointset(all_data[algo], xn, yn)]. *)
Definition pointset_of (all_data : PyDict.dict (list MetricRecord))
    (xn yn algo : string) : pointset :=
  create_pointset metrics (default [] (PyDict.get all_data algo)) xn yn.

(** Lines 26-28. *)
Definition mean_y (all_data : PyDict.dict (list MetricRecord))
    (xn yn algo : string) : float :=
  neg_mean_log (map py (frontier_points (pointset_of all_data xn yn algo))).

(** Line 32: the algorithms in the order in which they are drawn. *)
Definition plot_order (all_data : PyDict.dict (list MetricRecord))
    (xn yn : string) : list string :=
  proj1_sig (sorted_by (mean_y all_data xn yn) (PyDict.keys all_data)).

(** What lines 19-95 put into the figure: the lines of the loop, the
    labels, the scales and the limits. *)
Definition drawing (all_data : PyDict.dict (list MetricRecord))
    (raw : bool) (x_scale y_scale xn yn : string) : figure :=
  let xm := metrics xn in
  let ym := metrics yn in
  let order := plot_order all_data xn yn in
  let xss :=
    map (fun algo => map px (frontier_points (pointset_of all_data xn yn algo)))
        order in
  let min_x :=
    fold_left (fun m xs =>
                 Qmin_list (m :: List.filter (fun x => Qltb 0 x) xs)) xss 1 in
  let max_x :=
    fold_left (fun m xs =>
                 Qmax_list (m :: List.filter (fun x => Qltb x 1) xs)) xss 0 in
  {| curves :=
       map (fun algo =>
              let ps := pointset_of all_data xn yn algo in
              {| label := algo;
                 line := coords (frontier_points ps);
                 faded := if raw then Some (coords (all_points ps)) else None |})
           order;
     xlabel := description xm;
     ylabel := description ym;
     xscale := x_scale;
     yscale := y_scale;
     xlim :=
       match lim xm with
       | Some (x0, x1) =>
           if negb (String.eqb x_scale "logit")
           then Some (Qmax x0 0, Qmin x1 1)
           else Some (min_x, max_x)
       | None =>
           if String.eqb x_scale "logit" then Some (min_x, max_x) else None
       end;
     ylim := lim ym |}.

(** [create_plot], lines 18-98: the figure it has saved under [fn_out],
    or the exception it raised before.  The exceptions come in the order of
    the source: the line styles in the loop, then the x scale, then
    [plt.savefig].  Of [linestyles] only the lookup is kept: colours and
    markers are not part of [figure].  [xn], [yn] and [y_scale] are among
    the choices of the argument parser (lines 139-152), so that
    [metrics[xn]], [metrics[yn]] and [ax.set_yscale(y_scale)] find what they
    look up. *)
Definition create_plot (all_data : PyDict.dict (list MetricRecord))
    (raw : bool) (x_scale y_scale xn yn fn_out : string)
    (linestyles : PyDict.dict style) (batch : bool) : result figure :=
  do _ <- lookup_styles linestyles (plot_order all_data xn yn) in
  do _ <- set_xscale x_scale in
  let fig := drawing all_data raw x_scale y_scale xn yn in
  if savefig_ok fn_out fig then ret fig
  else raise (LibraryError "matplotlib.pyplot.savefig").

(** The state of the loop of lines 183-190. *)
Record grouping := {
  grouped_algos : PyDict.dict (list string);
  algo_to_group : PyDict.dict string;
  args_group : option string
}.

(** One turn of that loop; [args_algo] is [args.algo]. *)
Definition group_step (args_algo : string) (g : grouping) (algo : string)
  : grouping :=
  let base := split_base algo in
  let grouped :=
    PyDict.set (grouped_algos g) base
      (default [] (PyDict.get (grouped_algos g) base) ++ [algo]) in
  let to_group := PyDict.set (algo_to_group g) algo base in
  {| grouped_algos := grouped;
     algo_to_group := to_group;
     args_group := PyDict.get to_group args_algo |}.

Definition group_algorithms (args_algo : string)
    (unique_algorithms : list string) : grouping :=
  fold_left (group_step args_algo) unique_algorithms
    {| grouped_algos := []; algo_to_group := []; args_group := None |}.

(** Lines 201-204. *)
Definition filter_results (allowed_algorithm_keys : list string)
    (runs : PyDict.dict (list MetricRecord)) : PyDict.dict (list MetricRecord) :=
  List.filter (fun '(algo, _) => bool_decide (algo ∈ allowed_algorithm_keys))
              runs.

(** Line 206: [args.outputdir + f"/{args.algo}-vs-{base}-{args.dataset}.png"]. *)
Definition comparison_path (args : Args) (args_algo base : string) : string :=
  outputdir args +:+ "/" +:+ args_algo +:+ "-vs-" +:+ base +:+ "-"
  +:+ dataset args +:+ ".png".

(** The call of lines 199-210 for one group. *)
Definition comparison_plot (args : Args) (args_algo : string)
    (runs : PyDict.dict (list MetricRecord)) (linestyles : PyDict.dict style)
    (base : string) (group : list string) : result saved :=
  let allowed_algorithm_keys := args_algo :: group in
  let filtered_results := filter_results allowed_algorithm_keys runs in
  let output_file := comparison_path args args_algo base in
  do fig <- create_plot filtered_results (raw args) (x_scale args)
              (y_scale args) (x_axis args) (y_axis args) output_file
              linestyles (batch args) in
  ret (output_file, fig).

(** The loop of lines 195-210 over the groups left: the figures saved so
    far, in order, and how the loop ends.  A call that raises ends it, and
    the figures saved before stay. *)
Fixpoint comparison_loop (args : Args) (args_algo : string)
    (group_of_algo : option string) (runs : PyDict.dict (list MetricRecord))
    (linestyles : PyDict.dict style) (items : list (string * list string))
    (written : list saved) : list saved * outcome :=
  match items with
  | [] => (written, Done)
  | (base, group) :: rest =>
      if bool_decide (Some base = group_of_algo)
      then comparison_loop args args_algo group_of_algo runs linestyles rest
             written
      else
        match comparison_plot args args_algo runs linestyles base group with
        | inl e => (written, Raised e)
        | inr plot =>
            comparison_loop args args_algo group_of_algo runs linestyles rest
              (written ++ [plot])
        end
  end.

(** Lines 195-210: the comparison plots, one per group that is not the
    group of [args.algo]. *)
Definition comparison_plots (args : Args) (args_algo : string)
    (g : grouping) (runs : PyDict.dict (list MetricRecord))
    (linestyles : PyDict.dict style) : list saved * outcome :=
  comparison_loop args args_algo (args_group g) runs linestyles
    (grouped_algos g) [].

(** Lines 162-164. *)
Definition output_path (args : Args) : string :=
  if truthy (output args) then default "" (output args)
  else outputdir args +:+ "/" +:+ dataset args
       +:+ (if batch args then "-batch" else "") +:+ ".png".

(** The last call, lines 213-215: all of [runs], under the main output
    path. *)
Definition full_plot (args : Args) (runs : PyDict.dict (list MetricRecord))
    (linestyles : PyDict.dict style) : result figure :=
  create_plot runs (raw args) (x_scale args) (y_scale args)
    (x_axis args) (y_axis args) (output_path args) linestyles (batch args).

(** The script from line 171 on: [unique_algorithms] is what
    [get_unique_algorithms()] returned, [linestyles] what
    [create_linestyles] returned and [runs] what [compute_metrics]
    returned.  The result is the list of the figures saved, in the order of
    the calls of [plt.savefig], and how the script ends. *)
Definition main (args : Args) (unique_algorithms : list string)
    (linestyles : PyDict.dict style)
    (runs : PyDict.dict (list MetricRecord)) : list saved * outcome :=
  match runs with
  | [] => ([], Raised (Exception "Nothing to plot"))
  | _ =>
      let '(comparisons, out) :=
        if truthy (algo args) then
          let args_algo := default "" (algo args) in
          comparison_plots args args_algo
            (group_algorithms args_algo unique_algorithms) runs linestyles
        else ([], Done) in
      match out with
      | Raised e => (comparisons, Raised e)
      | Done =>
          match full_plot args runs linestyles with
          | inl e => (comparisons, Raised e)
          | inr fig => (comparisons ++ [(output_path args, fig)], Done)
          end
      end
  end.

(** The image files after the script, given those before it. *)
Definition save_all (written : list saved) (images : gmap string figure)
  : gmap string figure :=
  fold_left (fun m '(path, fig) => <[path := fig]> m) written images.

End Script.

End Plot.

(** ** Paths ([os.path] on POSIX) *)

Module OsPath.

(** [s[:n]] *)
Fixpoint take (n : nat) (s : string) : string :=
  match n, s with
  | S n', String c rest => String c (take n' rest)
  | _, _ => EmptyString
  end.

(** [s[n:]] *)
Fixpoint drop (n : nat) (s : string) : string :=
  match n, s with
  | S n', String c rest => drop n' rest
  | _, _ => s
  end.

(** [c in s] *)
Fixpoint contains (c : ascii) (s : string) : bool :=
  match s with
  | EmptyString => false
  | String c' rest => Ascii.eqb c' c || contains c rest
  end.

(** [s.rfind(c)]: the index of the last [c], [-1] when there is none. *)
Fixpoint rfind (c : ascii) (s : string) : Z :=
  match s with
  | EmptyString => -1
  | String c' rest =>
      let i := rfind c rest in
      if (0 <=? i)%Z then (i + 1)%Z
      else if Ascii.eqb c' c then 0%Z else (-1)%Z
  end.

(** [s.startswith(c)] and [s.endswith(c)] for a one-character [c]. *)
Definition startswith (c : ascii) (s : string) : bool :=
  match s with
  | String c' _ => Ascii.eqb c' c
  | EmptyString => false
  end.

Fixpoint endswith (c : ascii) (s : string) : bool :=
  match s with
  | EmptyString => false
  | String c' EmptyString => Ascii.eqb c' c
  | String _ rest => endswith c rest
  end.

(** [s == c * len(s)] *)
Fixpoint all_chars (c : ascii) (s : string) : bool :=
  match s with
  | EmptyString => true
  | String c' rest => Ascii.eqb c' c && all_chars c rest
  end.

(** [s.rstrip(c)] *)
Fixpoint rstrip (c : ascii) (s : string) : string :=
  match s with
  | EmptyString => EmptyString
  | String c' rest =>
      match rstrip c rest with
      | EmptyString => if Ascii.eqb c' c then EmptyString else String c' EmptyString
      | rest' => String c' rest'
      end
  end.

(** The loop of [genericpath._splitext] that skips the leading dots of the
    file name: [true] when a character other than the dot stands at or
    after [filenameIndex], within [fuel] characters. *)
Fixpoint finds_name (fuel filenameIndex : nat) (p : string) : bool :=
  match fuel with
  | O => false
  | S fuel' =>
      match String.get filenameIndex p with
      | Some c =>
          if negb (Ascii.eqb c ".") then true
          else finds_name fuel' (S filenameIndex) p
      | None => true
      end
  end.

(** [os.path.splitext(p)] *)
Definition splitext (p : string) : string * string :=
  let sepIndex := rfind "/" p in
  let dotIndex := rfind "." p in
  if (sepIndex <? dotIndex)%Z then
    let filenameIndex := Z.to_nat (sepIndex + 1) in
    if finds_name (Z.to_nat dotIndex - filenameIndex) filenameIndex p
    then (take (Z.to_nat dotIndex) p, drop (Z.to_nat dotIndex) p)
    else (p, EmptyString)
  else (p, EmptyString).

(** [os.path.dirname(p)] *)
Definition dirname (p : string) : string :=
  let i := Z.to_nat (rfind "/" p + 1) in
  let head := take i p in
  if negb (String.eqb head "") && negb (all_chars "/" head)
  then rstrip "/" head
  else head.

(** [os.path.join(a, b)] *)
Definition join (a b : string) : string :=
  if startswith "/" b then b
  else if String.eqb a "" || endswith "/" a then a +:+ b
  else a +:+ "/" +:+ b.

End OsPath.

(** ** data_export.py: the name of the output file *)

Module ExportPath.

(** What [strftime("%y%m%d")] reads of [datetime.datetime.now()]. *)
Record datetime := {
  year : nat;
  month : nat;
  day : nat
}.

Definition digit (n : nat) : ascii := ascii_of_nat (48 + n).

(** A number below 100 in two digits, as [%y], [%m] and [%d] print it. *)
Definition two_digits (n : nat) : string :=
  String (digit (n / 10)) (String (digit (n mod 10)) EmptyString).

(** [get_date_str], lines 11-12, at the time [now]. *)
Definition get_date_str (now : datetime) : string :=
  two_digits (year now mod 100) +:+ two_digits (month now)
  +:+ two_digits (day now).

(** Lines 28-38: [args.output] as the script leaves it, given the value of
    [--output]. *)
Definition output_file (output : option string) (now : datetime) : string :=
  if negb (Plot.truthy output) then
    "reports/data-" +:+ get_date_str now +:+ ".csv"
  else
    let given := default "" output in
    let '(name, ext) := OsPath.splitext given in
    if String.eqb (OsPath.dirname given) "" then
      OsPath.join "reports" (name +:+ "-" +:+ get_date_str now +:+ ext)
    else name +:+ "-" +:+ get_date_str now +:+ ext.

End ExportPath.

(** ** plot.py: the output directory *)

Module PlotDir.

(** The paths for which [os.path.isdir] holds, and those for which
    [os.path.exists] holds and [os.path.isdir] does not.  Paths are taken
    as they are written: [directory_path] asks about one path only, and
    the other spellings of a directory and the parents that [os.makedirs]
    creates on the way are not listed. *)
Record names := {
  directories : gset string;
  regular_files : gset string
}.

Definition path_exists (fs : names) (s : string) : bool :=
  bool_decide (s ∈ directories fs) || bool_decide (s ∈ regular_files fs).

Definition isdir (fs : names) (s : string) : bool :=
  bool_decide (s ∈ directories fs).

Section WithOs.

(** Whether [os.makedirs(s)] creates the directory.  The operating system
    decides: it refuses the empty path, a path that runs through a regular
    file, a parent in which the process may not write. *)
Variable can_make : names -> string -> bool.

(** [os.makedirs(s)]: the directory is there afterwards, or [OSError] is
    raised and nothing changes. *)
Definition makedirs (fs : names) (s : string) : result names :=
  if can_make fs s
  then ret {| directories := {[s]} ∪ directories fs;
              regular_files := regular_files fs |}
  else raise (OSError s).

(** [directory_path], lines 116-122: the file system it leaves, and the
    path it returns or the exception it raises. *)
Definition directory_path (fs : names) (s : string) : names * result string :=
  match (if negb (path_exists fs s) then makedirs fs s else ret fs) with
  | inl e => (fs, raise e)
  | inr fs' =>
      if negb (isdir fs' s)
      then (fs', raise (ArgumentTypeError ("'" +:+ s +:+ "' is not a directory")))
      else (fs', ret (s +:+ "/"))
  end.

End WithOs.

End PlotDir.

(** ** Sample data *)

Module Sample.

(** A small results store: two datasets with runs, one without. *)
Definition load_all_results (dataset_name : string) : list nat :=
  if String.eqb dataset_name "glove-100-angular" then [1; 2]%nat
  else if String.eqb dataset_name "sift-128-euclidean" then [3]%nat
  else [].

Definition get_dataset (dataset_name : string) : option string :=
  Some dataset_name.

(** Run 1 has every metric, run 2 lacks [distcomp], run 3 has a metric
    of its own. *)
Definition result_of (ds : string) (r : nat) : record :=
  match r with
  | 1%nat => [("algorithm", PStr "hnswlib"); ("parameters", PStr "M=8");
              ("dataset", PStr ds); ("k-nn", PFloat (9 # 10));
              ("qps", PFloat 1200); ("distcomp", PFloat 350)]
  | 2%nat => [("algorithm", PStr "annoy"); ("parameters", PStr "trees=10");
              ("dataset", PStr ds); ("k-nn", PFloat (7 # 10));
              ("qps", PFloat 2500)]
  | _ => [("algorithm", PStr "patann"); ("parameters", PStr "c=4");
          ("dataset", PStr ds); ("k-nn", PFloat (8 # 10));
          ("qps", PFloat 1800); ("indexsize", PFloat 64)]
  end.

Definition compute_metrics_all_runs (ds : string) (runs : list nat)
    (recompute : bool) : option (list record) :=
  Some (map (result_of ds) runs).

Definition no_files : DataExport.filesystem :=
  {| DataExport.dirs := ∅; DataExport.files := ∅ |}.

(** A registry with the three metrics the specification names. *)
Definition metrics (name : string) : Metrics.metric_entry :=
  if String.eqb name "k-nn" then
    {| Metrics.description := "Recall";
       Metrics.better_when := Metrics.HigherIsBetter;
       Metrics.lim := Some (0, 1) |}
  else if String.eqb name "qps" then
    {| Metrics.description := "Queries per second (1/s)";
       Metrics.better_when := Metrics.HigherIsBetter;
       Metrics.lim := None |}
  else
    {| Metrics.description := "Distance computations";
       Metrics.better_when := Metrics.LowerIsBetter;
       Metrics.lim := None |}.

(** Floats for the samples: a rational, or [None] for [nan]. *)
Definition float : Type := option Q.

(** A stand-in for the key of line 28, with numpy's [nan] on no value. *)
Definition neg_mean_log (ys : list Q) : float :=
  match ys with
  | [] => None
  | _ => Some (- Qsum ys)
  end.

(** [a < b] on these floats; a comparison with [nan] is false. *)
Definition float_lt (a b : float) : bool :=
  match a, b with
  | Some x, Some y => Qltb x y
  | _, _ => false
  end.

(** A stand-in for [sorted]: an insertion sort that moves an element
    behind those with a smaller key. *)
Fixpoint insert_by_key (key : string -> float) (a : string) (l : list string)
  : list string :=
  match l with
  | [] => [a]
  | b :: l' =>
      if float_lt (key b) (key a) then b :: insert_by_key key a l'
      else a :: b :: l'
  end.

Definition sorted_by_key (key : string -> float) (l : list string)
  : list string :=
  foldr (insert_by_key key) [] l.

Definition sorted_by (key : string -> float) (l : list string)
  : {l' : list string | l' ≡ₚ l}.
Proof.
  exists (sorted_by_key key l).
  induction l as [|a l IH]; simpl; [reflexivity|].
  rewrite <- IH at 2. generalize (sorted_by_key key l). clear.
  intros l. induction l as [|b l IH]; simpl; [reflexivity|].
  destruct (float_lt (key b) (key a)); [|reflexivity].
  rewrite IH. apply Permutation_swap.
Defined.

(** Line styles for the known algorithms, as [create_linestyles] gives
    them; their content plays no part. *)
Definition linestyles : PyDict.dict unit :=
  [("annoy-a", tt); ("hnsw-a", tt); ("hnsw-b", tt); ("patann-a", tt)].

(** A stand-in for [float]: the decimal numbers without sign, point or
    exponent. *)
Fixpoint digits_value (acc : Z) (s : string) : option Z :=
  match s with
  | EmptyString => Some acc
  | String c rest =>
      let n := Z.of_nat (nat_of_ascii c) in
      if ((48 <=? n) && (n <=? 57))%Z
      then digits_value (10 * acc + (n - 48)) rest
      else None
  end.

Definition float_of_string (s : string) : option float :=
  match s with
  | EmptyString => None
  | _ => z ← digits_value 0 s; Some (Some (inject_Z z))
  end.

(** The scales of matplotlib that need no further argument. *)
Definition known_scale (name : string) : bool :=
  bool_decide (name ∈ ["linear"; "log"; "symlog"; "logit"]).

(** A matplotlib that saves every figure under every path but the empty
    one. *)
Definition savefig_ok (fn_out : string) (fig : Plot.figure) : bool :=
  negb (String.eqb fn_out "").

(** One query with two true neighbours. *)
Definition truth : Metrics.GroundTruth :=
  {| Metrics.true_neighbors := [[3; 5]%nat];
     Metrics.true_distances := [[1 # 2; 3 # 4]] |}.

(** A run that found neighbour 7 instead of 5, at the same distance, and
    that has no timing. *)
Definition untimed_run : Metrics.RunRecord :=
  {| Metrics.run_algorithm := "patann-a";
     Metrics.run_parameters := "patann(c=4)";
     Metrics.run_neighbors := [[3; 7]%nat];
     Metrics.run_distances := [[1 # 2; 3 # 4]];
     Metrics.run_times := None;
     Metrics.run_distcomps := None |}.

Definition timed_run : Metrics.RunRecord :=
  {| Metrics.run_algorithm := "hnsw-a";
     Metrics.run_parameters := "hnsw(M=8)";
     Metrics.run_neighbors := [[3; 9]%nat];
     Metrics.run_distances := [[1 # 2; 2]];
     Metrics.run_times := Some [1 # 100];
     Metrics.run_distcomps := None |}.

Definition epsilon : Q := 1 # 1000.

(** The default arguments of plot.py on the dataset ["glove"]. *)
Definition plot_args (algo : option string) : Plot.Args :=
  {| Plot.dataset := "glove";
     Plot.count := 2;
     Plot.output := None;
     Plot.outputdir := "plots/";
     Plot.algo := algo;
     Plot.x_axis := "k-nn";
     Plot.y_axis := "qps";
     Plot.x_scale := "linear";
     Plot.y_scale := "linear";
     Plot.raw := false;
     Plot.batch := false;
     Plot.recompute := false |}.

(** The same arguments with another [--x-scale]. *)
Definition with_x_scale (x_scale : string) (args : Plot.Args) : Plot.Args :=
  {| Plot.dataset := Plot.dataset args;
     Plot.count := Plot.count args;
     Plot.output := Plot.output args;
     Plot.outputdir := Plot.outputdir args;
     Plot.algo := Plot.algo args;
     Plot.x_axis := Plot.x_axis args;
     Plot.y_axis := Plot.y_axis args;
     Plot.x_scale := x_scale;
     Plot.y_scale := Plot.y_scale args;
     Plot.raw := Plot.raw args;
     Plot.batch := Plot.batch args;
     Plot.recompute := Plot.recompute args |}.

(** The same arguments with [-o]. *)
Definition with_output (output : string) (args : Plot.Args) : Plot.Args :=
  {| Plot.dataset := Plot.dataset args;
     Plot.count := Plot.count args;
     Plot.output := Some output;
     Plot.outputdir := Plot.outputdir args;
     Plot.algo := Plot.algo args;
     Plot.x_axis := Plot.x_axis args;
     Plot.y_axis := Plot.y_axis args;
     Plot.x_scale := Plot.x_scale args;
     Plot.y_scale := Plot.y_scale args;
     Plot.raw := Plot.raw args;
     Plot.batch := Plot.batch args;
     Plot.recompute := Plot.recompute args |}.

Definition unique_algorithms : list string :=
  ["patann-a"; "hnsw-a"; "annoy-a"; "hnsw-b"].

(** The metric records of the two sample runs, by algorithm. *)
Definition sample_runs : PyDict.dict (list Metrics.MetricRecord) :=
  Metrics.compute_metrics 2 epsilon truth [untimed_run; timed_run].

(** plot.py on the sample registry and the sample matplotlib. *)
Definition plot_of (args : Plot.Args) (results : list Metrics.RunRecord) :=
  Plot.main metrics float neg_mean_log sorted_by unit float_of_string
    known_scale savefig_ok args unique_algorithms linestyles
    (Metrics.compute_metrics 2 epsilon truth results).

Definition plot (algo : option string) (results : list Metrics.RunRecord) :=
  plot_of (plot_args algo) results.

(** The parts of plot.py on the sample registry and the sample
    matplotlib. *)
Definition drawing := Plot.drawing metrics float neg_mean_log sorted_by.

Definition create_plot :=
  Plot.create_plot metrics float neg_mean_log sorted_by unit float_of_string
    known_scale savefig_ok.

Definition comparison_plots (args : Plot.Args) (args_algo : string) :=
  Plot.comparison_plots metrics float neg_mean_log sorted_by unit
    float_of_string known_scale savefig_ok args args_algo
    (Plot.group_algorithms args_algo unique_algorithms) sample_runs linestyles.

Definition full_plot (args : Plot.Args) :=
  Plot.full_plot metrics float neg_mean_log sorted_by unit float_of_string
    known_scale savefig_ok args sample_runs linestyles.

(** An operating system that makes every directory but the one without a
    name and those under a regular file. *)
Definition can_make (fs : PlotDir.names) (s : string) : bool :=
  negb (String.eqb s "")
  && negb (bool_decide (OsPath.dirname s ∈ PlotDir.regular_files fs)).

(** The point cloud of the scenario of section 8 of the specification. *)
Definition A1 : Reducer.point :=
  {| Reducer.px := 1 # 2; Reducer.py := 100; Reducer.plabel := "A1" |}.
Definition A2 : Reducer.point :=
  {| Reducer.px := 9 # 10; Reducer.py := 10; Reducer.plabel := "A2" |}.
Definition B1 : Reducer.point :=
  {| Reducer.px := 6 # 10; Reducer.py := 90; Reducer.plabel := "B1" |}.

(** The rows the sample datasets contribute. *)
Definition glove_rows : list record :=
  DataExport.tag_results "glove-100-angular"
    (map (result_of "glove-100-angular") [1; 2]%nat).

Definition sift_rows : list record :=
  DataExport.tag_results "sift-128-euclidean"
    (map (result_of "sift-128-euclidean") [3]%nat).

Definition output : string := "reports/data-261104.csv".

(** An operating system that opens a path for writing unless the path
    names a directory or [reports] is a regular file. *)
Definition can_open (fs : DataExport.filesystem) (path : string) : bool :=
  negb (bool_decide (path ∈ DataExport.dirs fs))
  && negb (bool_decide (is_Some (DataExport.files fs !! "reports"))).

(** A file system on which [reports] is a regular file. *)
Definition reports_is_a_file : DataExport.filesystem :=
  {| DataExport.dirs := ∅; DataExport.files := {["reports" := []]} |}.

(** The rows collected from the sample store, and its export, over the
    given dataset names. *)
Definition collect (DATASETS : list string) :=
  DataExport.collect nat string load_all_results get_dataset
    compute_metrics_all_runs false DATASETS [].

Definition export_on (fs : DataExport.filesystem) (DATASETS : list string) :=
  DataExport.main nat string load_all_results get_dataset
    compute_metrics_all_runs false output can_open DATASETS fs.

Definition export (DATASETS : list string) := export_on no_files DATASETS.

End Sample.

(** A results store whose second dataset cannot be loaded, and the day of
    the sample exports. *)
Module FailingStore.

Definition get_dataset (dataset_name : string) : option string :=
  if String.eqb dataset_name "sift-128-euclidean" then None
  else Some dataset_name.

Definition export (DATASETS : list string) :=
  DataExport.main nat string Sample.load_all_results get_dataset
    Sample.compute_metrics_all_runs false Sample.output Sample.can_open
    DATASETS Sample.no_files.

Definition today : ExportPath.datetime :=
  {| ExportPath.year := 2026; ExportPath.month := 11; ExportPath.day := 4 |}.

End FailingStore.

(** * Properties *)

(** ** Dictionaries *)

Section PyDictFacts.

Context {V : Type}.
Implicit Types (d : PyDict.dict V) (k : string) (v : V).

Lemma get_set_eq d k v : PyDict.get (PyDict.set d k v) k = Some v.
Proof.
  induction d as [|[k' v'] d IH]; simpl.
  - by rewrite String.eqb_refl.
  - destruct (String.eqb k' k) eqn:E; simpl.
    + by rewrite String.eqb_refl.
    + by rewrite E.
Qed.

Lemma get_set_ne d k k' v :
  k ≠ k' → PyDict.get (PyDict.set d k v) k' = PyDict.get d k'.
Proof.
  intros Hne. induction d as [|[k0 v0] d IH]; simpl.
  - by apply String.eqb_neq in Hne as ->.
  - destruct (String.eqb k0 k) eqn:E; simpl.
    + apply String.eqb_eq in E as ->.
      by apply String.eqb_neq in Hne as ->.
    + by rewrite IH.
Qed.

Lemma keys_set d k v k' :
  k' ∈ PyDict.keys (PyDict.set d k v) ↔ k' = k ∨ k' ∈ PyDict.keys d.
Proof.
  unfold PyDict.keys. induction d as [|[k0 v0] d IH]; simpl.
  - rewrite list_elem_of_singleton, elem_of_nil. tauto.
  - destruct (String.eqb k0 k) eqn:E; simpl.
    + apply String.eqb_eq in E as ->. rewrite elem_of_cons. tauto.
    + rewrite !elem_of_cons, IH. tauto.
Qed.

Lemma get_is_Some d k : is_Some (PyDict.get d k) ↔ k ∈ PyDict.keys d.
Proof.
  unfold PyDict.keys. induction d as [|[k0 v0] d IH]; simpl.
  - split; [intros [? ?]; discriminate | by intros ?%elem_of_nil].
  - destruct (String.eqb k0 k) eqn:E.
    + apply String.eqb_eq in E as ->. split; [intros _; by left | eauto].
    + apply String.eqb_neq in E. rewrite IH, elem_of_cons.
      split; [by right | by intros [->|?]].
Qed.

End PyDictFacts.

(** ** data_export.py *)

Section DictWriterFacts.

Import DataExport.

Implicit Types (w : DictWriter) (res : record) (dfs : list record) (f : csvfile).

(** A record fits a writer when it has no key outside the field names. *)
Lemma wrong_fields_nil w res :
  wrong_fields w res = [] ↔ ∀ k, k ∈ PyDict.keys res → k ∈ fieldnames w.
Proof.
  unfold wrong_fields. split.
  - intros Hnil k Hk. destruct (decide (k ∈ fieldnames w)) as [|Hout]; [done|].
    assert (k ∈ filter (fun k => k ∉ fieldnames w) (PyDict.keys res)) as Hin
      by (apply list_elem_of_filter; done).
    rewrite Hnil in Hin. by apply elem_of_nil in Hin.
  - intros Hall. apply elem_of_nil_inv. intros k [Hout Hk]%list_elem_of_filter.
    by apply Hout, Hall.
Qed.

Lemma dict_to_list_fits names res :
  (∀ k, k ∈ PyDict.keys res → k ∈ names) →
  dict_to_list (mkDictWriter names) res = ret (to_row (mkDictWriter names) res).
Proof.
  intros Hall. unfold dict_to_list; simpl.
  rewrite bool_decide_eq_true_2; [done|]. by apply wrong_fields_nil.
Qed.


(** When every record fits, all the rows are written. *)
Lemma writerows_fit names dfs f :
  (∀ res k, res ∈ dfs → k ∈ PyDict.keys res → k ∈ names) →
  writerows (mkDictWriter names) dfs f
  = (f ++ map (to_row (mkDictWriter names)) dfs, Done).
Proof.
  revert f. induction dfs as [|res dfs IH]; intros f Hall; simpl.
  - by rewrite app_nil_r.
  - unfold writerow. rewrite dict_to_list_fits; simpl.
    + rewrite IH.
      * by rewrite <- app_assoc.
      * intros r k Hr. apply Hall. by right.
    + intros k. apply Hall. by left.
Qed.


(** One record with a key outside the field names stops the writer on a
    [ValueError], short of that record's row; the error names the fields
    of the record it stopped at. *)
Lemma writerows_extra names dfs f res k :
  res ∈ dfs → k ∈ PyDict.keys res → k ∉ names →
  ∃ rows bad,
    writerows (mkDictWriter names) dfs f
    = (f ++ rows,
       Raised (ValueError
                 (FieldsNotInFieldnames (wrong_fields (mkDictWriter names) bad))))
    ∧ bad ∈ dfs
    ∧ wrong_fields (mkDictWriter names) bad ≠ []
    ∧ (length rows < length dfs)%nat.
Proof.
  revert f. induction dfs as [|r dfs IH]; intros f Hin Hk Hout.
  - by apply elem_of_nil in Hin.
  - simpl. unfold writerow.
    destruct (decide (wrong_fields (mkDictWriter names) r = [])) as [Hfit|Hbad].
    + pose proof (proj1 (wrong_fields_nil _ _) Hfit) as Hfit'. simpl in Hfit'.
      rewrite dict_to_list_fits by done. simpl.
      apply elem_of_cons in Hin as [->|Hin]; [by specialize (Hfit' k Hk)|].
      destruct (IH (f ++ [to_row (mkDictWriter names) r]) Hin Hk Hout)
        as (rows & bad & -> & Hbad & Hwrong & Hlen).
      exists (to_row (mkDictWriter names) r :: rows), bad.
      rewrite <- app_assoc. split; [done|]. split; [by right|].
      split; [done | simpl; lia].
    + unfold dict_to_list; simpl. rewrite bool_decide_eq_false_2 by done; simpl.
      exists [], r. rewrite app_nil_r. split; [done|]. split; [by left|].
      split; [done | simpl; lia].
Qed.

End DictWriterFacts.

Section ExportFacts.

Import DataExport.

Variable run : Type.
Variable dataset : Type.
Variable load_all_results : string -> list run.
Variable get_dataset : string -> option dataset.
Variable compute_metrics_all_runs :
  dataset -> list run -> bool -> option (list record).
Variable recompute : bool.
Variable output : string.
Variable can_open : filesystem -> string -> bool.

Local Abbreviation visit_dataset :=
  (visit_dataset run dataset load_all_results get_dataset
     compute_metrics_all_runs recompute).
Local Abbreviation collect :=
  (collect run dataset load_all_results get_dataset
     compute_metrics_all_runs recompute).
Local Abbreviation write_table := (write_table output can_open).
Local Abbreviation main :=
  (main run dataset load_all_results get_dataset
     compute_metrics_all_runs recompute output can_open).
Local Abbreviation yields :=
  (yields run dataset load_all_results get_dataset
     compute_metrics_all_runs recompute).

Implicit Types (dfs acc : list record) (fs : filesystem) (d : string).

Lemma visit_dataset_empty d dfs :
  load_all_results d = [] → visit_dataset d dfs = ret dfs.
Proof. intros Hd. unfold DataExport.visit_dataset. by rewrite Hd. Qed.

Lemma visit_dataset_yields d dfs dfs' :
  visit_dataset d dfs = inr dfs' → ∃ rows, yields d rows ∧ dfs' = dfs ++ rows.
Proof.
  unfold DataExport.visit_dataset.
  destruct (load_all_results d) as [|r0 rs] eqn:Hload; simpl.
  - intros [= <-]. exists []. rewrite app_nil_r. split; [|done].
    by apply yields_nothing.
  - destruct (get_dataset d) as [ds|] eqn:Hds; [|discriminate].
    destruct (compute_metrics_all_runs ds (r0 :: rs) recompute)
      as [results|] eqn:Hres; [|discriminate].
    intros [= <-]. exists (tag_results d results). split; [|done].
    apply yields_results with ds; rewrite ?Hload; done.
Qed.

Lemma yields_visit_dataset d dfs rows :
  yields d rows → visit_dataset d dfs = ret (dfs ++ rows).
Proof.
  intros [Hd | ds results Hd Hds Hres].
  - rewrite visit_dataset_empty by done. by rewrite app_nil_r.
  - unfold DataExport.visit_dataset.
    destruct (load_all_results d) as [|r0 rs] eqn:Hload; [done|]. simpl.
    by rewrite Hds, Hres.
Qed.

Lemma collect_app before after acc :
  collect (before ++ after) acc
  = do dfs <- collect before acc in collect after dfs.
Proof.
  revert acc. induction before as [|d before IH]; intros acc; simpl; [done|].
  destruct (visit_dataset d acc) as [e|dfs']; simpl; [done|]. apply IH.
Qed.

(** Every collected row is an earlier one or a tagged result of a dataset
    that has stored runs. *)
Lemma collect_rows datasets acc dfs row :
  collect datasets acc = inr dfs → row ∈ dfs →
  row ∈ acc ∨
  ∃ d ds results res,
    d ∈ datasets ∧ load_all_results d ≠ [] ∧ get_dataset d = Some ds
    ∧ compute_metrics_all_runs ds (load_all_results d) recompute = Some results
    ∧ res ∈ results ∧ row = PyDict.set res "dataset" (PStr d).
Proof.
  revert acc. induction datasets as [|d datasets IH]; intros acc; simpl.
  - intros [= <-]. by left.
  - destruct (visit_dataset d acc) as [e|dfs'] eqn:Hvisit; simpl; [done|].
    intros Hcollect Hrow.
    destruct (IH _ Hcollect Hrow) as [Hin|(d' & ds & results & res & Hd' & H)].
    + apply visit_dataset_yields in Hvisit as (rows & Hyields & ->).
      apply elem_of_app in Hin as [Hin|Hin]; [by left|]. right.
      destruct Hyields as [Hd | ds results Hd Hds Hres].
      * by apply elem_of_nil in Hin.
      * apply list_elem_of_fmap in Hin as (res & -> & Hres').
        exists d, ds, results, res. repeat split; try done. by left.
    + right. exists d', ds, results, res. split; [by right | done].
Qed.

(** Nothing already collected is lost, and every result of every dataset
    with stored runs is collected, tagged. *)
Lemma collect_keeps datasets acc dfs row :
  collect datasets acc = inr dfs → row ∈ acc → row ∈ dfs.
Proof.
  revert acc. induction datasets as [|d datasets IH]; intros acc; simpl.
  - by intros [= <-].
  - destruct (visit_dataset d acc) as [e|dfs'] eqn:Hvisit; simpl; [done|].
    intros Hcollect Hrow. apply (IH _ Hcollect).
    apply visit_dataset_yields in Hvisit as (rows & _ & ->).
    apply elem_of_app. by left.
Qed.

Lemma collect_complete datasets acc dfs d ds results res :
  collect datasets acc = inr dfs →
  d ∈ datasets → load_all_results d ≠ [] → get_dataset d = Some ds →
  compute_metrics_all_runs ds (load_all_results d) recompute = Some results →
  res ∈ results →
  PyDict.set res "dataset" (PStr d) ∈ dfs.
Proof.
  revert acc. induction datasets as [|d' datasets IH]; intros acc; simpl.
  - intros _ Hd. by apply elem_of_nil in Hd.
  - destruct (visit_dataset d' acc) as [e|dfs'] eqn:Hvisit; simpl; [done|].
    intros Hcollect Hd Hload Hds Hres Hin.
    apply elem_of_cons in Hd as [<-|Hd]; [|by eapply IH].
    apply (collect_keeps _ _ _ _ Hcollect).
    rewrite (yields_visit_dataset d acc (tag_results d results)) in Hvisit.
    + injection Hvisit as <-. apply elem_of_app. right.
      apply list_elem_of_fmap. by exists res.
    + by apply yields_results with ds.
Qed.

(** When [open] raises, the export ends there and leaves the files as
    they are. *)
Lemma write_table_not_opened first rest fs :
  can_open fs output = false →
  write_table (first :: rest) fs = (fs, Raised (OSError output)).
Proof. intros Hopen. unfold DataExport.write_table. by rewrite Hopen. Qed.

(** The table of a completed export. *)
Lemma write_table_Done first rest fs :
  snd (write_table (first :: rest) fs) = Done →
  can_open fs output = true
  ∧ (∀ res k, res ∈ first :: rest → k ∈ PyDict.keys res → k ∈ PyDict.keys first)
  ∧ write_table (first :: rest) fs
    = ({| dirs := dirs fs;
          files := <[output :=
                       map PStr (PyDict.keys first)
                       :: map (to_row (mkDictWriter (PyDict.keys first)))
                              (first :: rest)]> (files fs) |}, Done).
Proof.
  intros HDone.
  destruct (can_open fs output) eqn:Hopen;
    [|by rewrite write_table_not_opened in HDone].
  assert (∀ res k, res ∈ first :: rest → k ∈ PyDict.keys res
                   → k ∈ PyDict.keys first) as Hfit.
  { intros res k Hres Hk.
    destruct (decide (k ∈ PyDict.keys first)) as [|Hout]; [done|].
    destruct (writerows_extra (PyDict.keys first) (first :: rest)
                (writeheader (mkDictWriter (PyDict.keys first)) []) res k
                Hres Hk Hout) as (rows & bad & Hw & _).
    unfold DataExport.write_table in HDone. rewrite Hopen, Hw in HDone. done. }
  split; [done|]. split; [done|].
  unfold DataExport.write_table. by rewrite Hopen, writerows_fit.
Qed.


Lemma to_row_lookup names res j k :
  names !! j = Some k →
  to_row (mkDictWriter names) res !! j = Some (default (PStr "") (PyDict.get res k)).
Proof. intros Hj. unfold to_row; simpl. by rewrite list_lookup_fmap, Hj. Qed.

(** C3. A dataset without stored runs adds no row and raises nothing: the
    loop body leaves the collected rows as they are, the export is the one
    of the remaining datasets, and no collected row carries its name. *)
Theorem export_skips_dataset_without_runs before d after fs :
  load_all_results d = [] →
  (∀ dfs, visit_dataset d dfs = ret dfs)
  ∧ collect (before ++ d :: after) [] = collect (before ++ after) []
  ∧ main (before ++ d :: after) fs = main (before ++ after) fs
  ∧ (∀ dfs row, collect (before ++ d :: after) [] = inr dfs → row ∈ dfs →
       PyDict.get row "dataset" ≠ Some (PStr d)).
Proof.
  intros Hd.
  assert (collect (before ++ d :: after) [] = collect (before ++ after) [])
    as Hsame.
  { rewrite !collect_app. destruct (collect before []) as [e|dfs]; simpl; [done|].
    by rewrite visit_dataset_empty. }
  repeat split.
  - intros dfs. by apply visit_dataset_empty.
  - done.
  - unfold DataExport.main. by rewrite Hsame.
  - intros dfs row Hcollect Hrow Htag.
    destruct (collect_rows _ _ _ _ Hcollect Hrow)
      as [Hin|(d' & ds & results & res & _ & Hload & _ & _ & _ & ->)].
    + by apply elem_of_nil in Hin.
    + rewrite get_set_eq in Htag. injection Htag as ->. done.
Qed.

(** C7. Every result computed for a dataset that has stored runs is
    collected as one flat row: the result with the dataset name under
    ["dataset"], every other key of the result with its value; and when the
    export completes, the row written for it holds each of these values in
    the column of its key. *)
Theorem export_row_merges_dataset_and_result DATASETS fs d ds results res dfs :
  d ∈ DATASETS → load_all_results d ≠ [] → get_dataset d = Some ds →
  compute_metrics_all_runs ds (load_all_results d) recompute = Some results →
  res ∈ results →
  collect DATASETS [] = inr dfs →
  let row := PyDict.set res "dataset" (PStr d) in
  row ∈ dfs
  ∧ PyDict.get row "dataset" = Some (PStr d)
  ∧ (∀ k, k ≠ "dataset" → PyDict.get row k = PyDict.get res k)
  ∧ (snd (main DATASETS fs) = Done →
     ∃ first f,
       head dfs = Some first
       ∧ files (fst (main DATASETS fs)) !! output = Some f
       ∧ to_row (mkDictWriter (PyDict.keys first)) row ∈ f
       ∧ ∀ k v, PyDict.get row k = Some v →
           ∃ j, PyDict.keys first !! j = Some k
                ∧ to_row (mkDictWriter (PyDict.keys first)) row !! j = Some v).
Proof.
  intros Hd Hload Hds Hres Hin Hcollect row.
  assert (row ∈ dfs) as Hrow by (by eapply collect_complete).
  split; [done|]. split; [apply get_set_eq|]. split.
  - intros k Hk. by apply get_set_ne.
  - unfold DataExport.main. rewrite Hcollect.
    destruct dfs as [|first rest]; [by apply elem_of_nil in Hrow|].
    intros HDone. apply write_table_Done in HDone as (_ & Hfit & ->). simpl.
    exists first, (map PStr (PyDict.keys first)
                   :: map (to_row (mkDictWriter (PyDict.keys first))) (first :: rest)).
    rewrite lookup_insert_eq. split; [done|]. split; [done|]. split.
    + right. apply list_elem_of_fmap. by exists row.
    + intros k v Hget.
      assert (k ∈ PyDict.keys first) as Hk.
      { apply (Hfit row k Hrow). apply get_is_Some. by exists v. }
      apply list_elem_of_lookup in Hk as [j Hj]. exists j. split; [done|].
      by rewrite (to_row_lookup _ _ _ _ Hj), Hget.
Qed.




End ExportFacts.


(** *** The sample store *)

Lemma sample_collect_glove :
  Sample.collect ["glove-100-angular"; "empty-set"] = inr Sample.glove_rows.
Proof. reflexivity. Qed.

Lemma sample_collect_all :
  Sample.collect ["glove-100-angular"; "sift-128-euclidean"]
  = inr (Sample.glove_rows ++ Sample.sift_rows).
Proof. reflexivity. Qed.

(** C3 on the sample store, with the dataset without runs in the middle. *)
Lemma export_skips_dataset_without_runs_witness :
  Sample.export ["glove-100-angular"; "empty-set"; "sift-128-euclidean"]
  = Sample.export ["glove-100-angular"; "sift-128-euclidean"].
Proof.
  exact (proj1 (proj2 (proj2
    (export_skips_dataset_without_runs nat string Sample.load_all_results
       Sample.get_dataset Sample.compute_metrics_all_runs false Sample.output
       Sample.can_open
       ["glove-100-angular"] "empty-set" ["sift-128-euclidean"] Sample.no_files
       eq_refl)))).
Defined.

(** C7 on the second result of the sample dataset. *)
Lemma export_row_merges_dataset_and_result_witness :
  let res := Sample.result_of "glove-100-angular" 2 in
  let row := PyDict.set res "dataset" (PStr "glove-100-angular") in
  row ∈ Sample.glove_rows
  ∧ PyDict.get row "dataset" = Some (PStr "glove-100-angular")
  ∧ (∀ k, k ≠ "dataset" → PyDict.get row k = PyDict.get res k).
Proof.
  pose proof (export_row_merges_dataset_and_result nat string
    Sample.load_all_results Sample.get_dataset Sample.compute_metrics_all_runs
    false Sample.output Sample.can_open
    ["glove-100-angular"; "empty-set"] Sample.no_files
    "glove-100-angular" "glove-100-angular"
    (map (Sample.result_of "glove-100-angular") [1; 2]%nat)
    (Sample.result_of "glove-100-angular" 2) Sample.glove_rows) as H.
  simpl in H. destruct H as (H1 & H2 & H3 & _).
  - apply list_elem_of_here.
  - discriminate.
  - reflexivity.
  - reflexivity.
  - apply list_elem_of_further, list_elem_of_here.
  - reflexivity.
  - simpl. split; [exact H1 | split; [exact H2 | exact H3]].
Defined.




(** The table written for the sample dataset: the second run has no
    [distcomp], and its row has the empty string there. *)
Example sample_table :
  Sample.export ["glove-100-angular"; "empty-set"]
  = ({| DataExport.dirs := {["reports"]} ∪ ∅;
        DataExport.files :=
          <[Sample.output :=
              [ [PStr "algorithm"; PStr "parameters"; PStr "dataset";
                 PStr "k-nn"; PStr "qps"; PStr "distcomp"];
                [PStr "hnswlib"; PStr "M=8"; PStr "glove-100-angular";
                 PFloat (9 # 10); PFloat 1200; PFloat 350];
                [PStr "annoy"; PStr "trees=10"; PStr "glove-100-angular";
                 PFloat (7 # 10); PFloat 2500; PStr ""] ]]> ∅ |}, Done).
Proof. reflexivity. Qed.

(** Where [reports] is a regular file the table cannot be opened: the
    export ends on the error of [open] and the files are as they were. *)
Example sample_export_not_opened :
  Sample.export_on Sample.reports_is_a_file ["glove-100-angular"; "empty-set"]
  = (Sample.reports_is_a_file, Raised (OSError Sample.output)).
Proof. reflexivity. Qed.


(** ** The metrics engine *)

Lemma Qltb_lt (a b : Q) : Qltb a b = true ↔ (a < b)%Q.
Proof.
  unfold Qltb. rewrite negb_true_iff, <- not_true_iff_false, Qle_bool_iff.
  split; [apply Qnot_le_lt | apply Qlt_not_le].
Qed.

Lemma Qltb_ge (a b : Q) : Qltb a b = false ↔ (b <= a)%Q.
Proof. unfold Qltb. by rewrite negb_false_iff, Qle_bool_iff. Qed.



Section MetricsFacts.

Import Metrics.

Implicit Types (k : nat) (epsilon kth : Q) (R : RunRecord) (G : GroundTruth).







End MetricsFacts.


(** The sample run found neighbour 7 where the ground truth has 5, at the
    distance of the second true neighbour: both of its neighbours count. *)
Example sample_recall :
  Metrics.computeMetric "k-nn" 2 Sample.epsilon Sample.untimed_run Sample.truth
  = Metrics.Value (2 # 2).
Proof. reflexivity. Qed.


(** ** The frontier reducer *)

Section ReducerFacts.

Import Metrics Reducer.

Implicit Types (ox oy o : orientation) (p q : point) (l : list point).

(** Turns the boolean comparisons of a goal and its hypotheses into
    inequalities of rationals, for [lra]. *)
Ltac order_to_Q :=
  unfold sweeps_before, better in *;
  repeat match goal with
    | H : context [if Qltb ?a ?b then _ else _] |- _ =>
        destruct (Qltb a b) eqn:?
    | |- context [if Qltb ?a ?b then _ else _] =>
        destruct (Qltb a b) eqn:?
    | H : negb _ = true |- _ => apply negb_true_iff in H
    | H : negb _ = false |- _ => apply negb_false_iff in H
    | |- negb _ = true => apply negb_true_iff
    | |- negb _ = false => apply negb_false_iff
    | H : Qltb _ _ = true |- _ => apply Qltb_lt in H
    | H : Qltb _ _ = false |- _ => apply Qltb_ge in H
    | |- Qltb _ _ = true => apply Qltb_lt
    | |- Qltb _ _ = false => apply Qltb_ge
    end.

Lemma better_trans o (a b c : Q) :
  better o a b = true → better o b c = true → better o a c = true.
Proof. destruct o; intros; order_to_Q; lra. Qed.

Lemma better_asym o (a b : Q) : better o a b = true → better o b a = false.
Proof. destruct o; intros; order_to_Q; lra. Qed.

Lemma sweeps_before_total ox oy p q :
  sweeps_before ox oy p q = false → sweeps_before ox oy q p = true.
Proof. destruct ox, oy; intros; order_to_Q; try done; lra. Qed.

Lemma sweeps_before_trans ox oy p q r :
  sweeps_before ox oy p q = true → sweeps_before ox oy q r = true →
  sweeps_before ox oy p r = true.
Proof. destruct ox, oy; intros; order_to_Q; try done; lra. Qed.

(** A point swept before one with a strictly better y has the strictly
    better x. *)
Lemma sweeps_before_better_y ox oy p q :
  sweeps_before ox oy p q = true → better oy (py q) (py p) = true →
  follows ox oy p q.
Proof.
  intros Hpq Hy. split; [|by apply better_asym].
  destruct ox, oy; order_to_Q; try done; lra.
Qed.

Lemma insert_point_elem_of ox oy p l q :
  q ∈ insert_point ox oy p l ↔ q = p ∨ q ∈ l.
Proof.
  induction l as [|r l IH]; simpl.
  - rewrite list_elem_of_singleton, elem_of_nil. tauto.
  - destruct (sweeps_before ox oy p r); rewrite !elem_of_cons; [done|].
    rewrite IH. tauto.
Qed.

Lemma sort_points_elem_of ox oy l q : q ∈ sort_points ox oy l ↔ q ∈ l.
Proof.
  induction l as [|p l IH]; simpl; [done|].
  by rewrite insert_point_elem_of, IH, elem_of_cons.
Qed.

Lemma insert_point_sorted ox oy p l :
  StronglySorted (fun a b => sweeps_before ox oy a b = true) l →
  StronglySorted (fun a b => sweeps_before ox oy a b = true)
    (insert_point ox oy p l).
Proof.
  induction 1 as [|r l Hl IH Hr]; simpl.
  - repeat constructor.
  - destruct (sweeps_before ox oy p r) eqn:Hpr.
    + constructor; [by constructor|]. constructor; [done|].
      eapply Forall_impl; [exact Hr|]. intros b Hb. simpl in Hb.
      by eapply sweeps_before_trans.
    + constructor; [done|]. apply Forall_forall. intros b Hb.
      apply insert_point_elem_of in Hb as [->|Hb].
      * by apply sweeps_before_total.
      * by apply (proj1 (Forall_forall _ _) Hr).
Qed.

Lemma sort_points_sorted ox oy l :
  StronglySorted (fun a b => sweeps_before ox oy a b = true) (sort_points ox oy l).
Proof.
  induction l as [|p l IH]; simpl; [constructor | by apply insert_point_sorted].
Qed.

(** What the sweep retains comes from the list and improves on the best
    retained before. *)
Lemma sweep_retained oy b l q :
  q ∈ sweep oy (Some b) l → q ∈ l ∧ better oy (py q) b = true.
Proof.
  revert b. induction l as [|p l IH]; intros b; simpl.
  - by intros ?%elem_of_nil.
  - destruct (better oy (py p) b) eqn:Hp.
    + intros [->|Hq]%elem_of_cons.
      * split; [by left | done].
      * destruct (IH _ Hq) as [Hin Hbetter]. split; [by right|].
        by eapply better_trans.
    + intros Hq. destruct (IH _ Hq) as [Hin Hbetter]. split; [by right | done].
Qed.

Lemma sweep_sorted ox oy best l :
  StronglySorted (fun a b => sweeps_before ox oy a b = true) l →
  StronglySorted (follows ox oy) (sweep oy best l).
Proof.
  intros Hl. revert best. induction Hl as [|p l Hl IH Hp]; intros best; simpl.
  - constructor.
  - assert (StronglySorted (follows ox oy) (p :: sweep oy (Some (py p)) l)) as Hkeep.
    { constructor; [apply IH|]. apply Forall_forall. intros q Hq.
      apply sweep_retained in Hq as [Hin Hbetter].
      apply sweeps_before_better_y; [|done].
      by apply (proj1 (Forall_forall _ _) Hp). }
    destruct best as [b|]; [|done].
    destruct (better oy (py p) b); [done | apply IH].
Qed.

(** C4. The frontier of any point cloud, read in its order, is strictly
    monotonic in x and never gets worse in y, by the orientation of each
    axis: of two of its points the earlier has the strictly better x, and
    its y is not better than the later one's.  The frontier of
    [create_pointset] is such a sequence. *)
Theorem frontier_is_monotonic ox oy (points : list point) :
  StronglySorted (follows ox oy) (frontier ox oy points)
  ∧ ∀ metrics data xn yn,
      StronglySorted
        (follows (better_when (metrics xn)) (better_when (metrics yn)))
        (frontier_points (create_pointset metrics data xn yn)).
Proof.
  split.
  - apply sweep_sorted, sort_points_sorted.
  - intros metrics data xn yn. apply sweep_sorted, sort_points_sorted.
Qed.

Lemma dominates_spec ox oy p q :
  dominates ox oy q p = true →
  better ox (px p) (px q) = false ∧ better oy (py p) (py q) = false
  ∧ (better ox (px q) (px p) = true ∨ better oy (py q) (py p) = true).
Proof.
  unfold dominates. rewrite !andb_true_iff, orb_true_iff, !negb_true_iff. tauto.
Qed.

(** A point is not dominated by one that is swept after it, nor by one
    whose y it strictly improves on, nor by one that is no better in y than
    a value it strictly improves on. *)
Lemma swept_before_not_dominated ox oy p q :
  sweeps_before ox oy p q = true → dominates ox oy q p = false.
Proof.
  intros Hpq. apply not_true_iff_false.
  intros (Hx & Hy & [Hs|Hs])%dominates_spec;
    destruct ox, oy; order_to_Q; try done; lra.
Qed.

Lemma better_y_not_dominated ox oy p q b :
  better oy (py p) b = true → better oy (py q) b = false →
  dominates ox oy q p = false.
Proof.
  intros Hp Hq. apply not_true_iff_false.
  intros (Hx & Hy & _)%dominates_spec. destruct oy; order_to_Q; lra.
Qed.

Lemma sweep_not_dominated ox oy best l p q :
  StronglySorted (fun a b => sweeps_before ox oy a b = true) l →
  p ∈ sweep oy best l → q ∈ l → dominates ox oy q p = false.
Proof.
  intros Hl. revert best.
  induction Hl as [|r l Hl IH Hr]; intros best; simpl.
  - by intros ?%elem_of_nil.
  - assert (p ∈ r :: sweep oy (Some (py r)) l → q ∈ r :: l →
            dominates ox oy q p = false) as Hkeep.
    { intros [->|Hp]%elem_of_cons [->|Hq]%elem_of_cons.
      - apply swept_before_not_dominated.
        destruct ox, oy; order_to_Q; try done; lra.
      - apply swept_before_not_dominated.
        by apply (proj1 (Forall_forall _ _) Hr).
      - apply sweep_retained in Hp as [_ Hp].
        eapply better_y_not_dominated; [exact Hp|].
        destruct oy; order_to_Q; lra.
      - by eapply IH. }
    destruct best as [b|]; [|done].
    destruct (better oy (py r) b) eqn:Hrb; [done|].
    intros Hp [->|Hq]%elem_of_cons; [|by eapply IH].
    apply sweep_retained in Hp as [_ Hp].
    by eapply better_y_not_dominated.
Qed.

(** X3. No point of the cloud dominates a point of the frontier, and the
    frontier is made of points of the cloud. *)
Theorem frontier_is_not_dominated ox oy (points : list point) p :
  p ∈ frontier ox oy points →
  p ∈ points ∧ ∀ q, q ∈ points → dominates ox oy q p = false.
Proof.
  intros Hp. split.
  - unfold frontier in Hp. apply (sort_points_elem_of ox oy).
    revert Hp. generalize (sort_points ox oy points), (@None Q).
    intros l. induction l as [|r l IH]; intros best; simpl.
    + by intros ?%elem_of_nil.
    + destruct best as [b|]; [destruct (better oy (py r) b)|].
      * intros [->|?]%elem_of_cons; [by left | right; by eapply IH].
      * intros ?. right. by eapply IH.
      * intros [->|?]%elem_of_cons; [by left | right; by eapply IH].
  - intros q Hq. eapply sweep_not_dominated; [apply sort_points_sorted|exact Hp|].
    by apply sort_points_elem_of.
Qed.

End ReducerFacts.


(** The scenario of the specification, both axes higher-is-better: the
    three points trade x for y, and the frontier keeps them all, from the
    best x to the best y. *)
Example frontier_of_trade_off :
  Reducer.frontier Metrics.HigherIsBetter Metrics.HigherIsBetter
    [Sample.A1; Sample.A2; Sample.B1]
  = [Sample.A2; Sample.B1; Sample.A1].
Proof. reflexivity. Qed.

(** X3 on the scenario of section 8. *)
Lemma frontier_is_not_dominated_witness :
  Sample.B1 ∈ [Sample.A1; Sample.A2; Sample.B1]
  ∧ ∀ q, q ∈ [Sample.A1; Sample.A2; Sample.B1] →
      Reducer.dominates Metrics.HigherIsBetter Metrics.HigherIsBetter q Sample.B1
      = false.
Proof.
  apply (frontier_is_not_dominated Metrics.HigherIsBetter Metrics.HigherIsBetter
           [Sample.A1; Sample.A2; Sample.B1] Sample.B1).
  apply list_elem_of_further, list_elem_of_here.
Defined.

(** A dominated point and a tie on x: only the better y of the tie stays. *)
Example frontier_drops_dominated :
  Reducer.frontier Metrics.HigherIsBetter Metrics.HigherIsBetter
    [ {| Reducer.px := 1 # 2; Reducer.py := 100; Reducer.plabel := "a" |};
      {| Reducer.px := 1 # 2; Reducer.py := 120; Reducer.plabel := "b" |};
      {| Reducer.px := 2 # 5; Reducer.py := 110; Reducer.plabel := "c" |};
      {| Reducer.px := 1 # 2; Reducer.py := 120; Reducer.plabel := "d" |} ]
  = [ {| Reducer.px := 1 # 2; Reducer.py := 120; Reducer.plabel := "b" |} ].
Proof. reflexivity. Qed.

Example frontier_of_nothing ox oy : Reducer.frontier ox oy [] = [].
Proof. reflexivity. Qed.

(** ** Further properties of the scripts *)

Section ExportHeader.

Import DataExport.

Variable run : Type.
Variable dataset : Type.
Variable load_all_results : string -> list run.
Variable get_dataset : string -> option dataset.
Variable compute_metrics_all_runs :
  dataset -> list run -> bool -> option (list record).
Variable recompute : bool.
Variable output : string.
Variable can_open : filesystem -> string -> bool.


End ExportHeader.


(** [compute_metrics] returns no algorithm exactly when no metric record
    was computed: every group it opens holds a record. *)
Lemma compute_metrics_nil k epsilon G results :
  Metrics.compute_metrics k epsilon G results = []
  ↔ Metrics.computeAllMetricsForRuns k epsilon G results = [].
Proof.
  unfold Metrics.compute_metrics.
  generalize (Metrics.computeAllMetricsForRuns k epsilon G results).
  intros records. split; [|by intros ->].
  assert (∀ (l : list Metrics.MetricRecord) groups,
            groups ≠ [] → fold_left Metrics.append_to_group l groups ≠ []) as Hgrows.
  { induction l as [|r l IH]; intros groups Hgroups; simpl; [done|].
    apply IH. unfold Metrics.append_to_group.
    destruct groups as [|[a data] groups]; simpl; [done|].
    by destruct (String.eqb a (Metrics.algorithm r)). }
  destruct records as [|r records]; [done|]. simpl. intros Hnil.
  by apply Hgrows in Hnil.
Qed.

(** *** data_export.py: order, failure and frame *)

Section ExportBehaviour.

Import DataExport.

Variable run : Type.
Variable dataset : Type.
Variable load_all_results : string -> list run.
Variable get_dataset : string -> option dataset.
Variable compute_metrics_all_runs :
  dataset -> list run -> bool -> option (list record).
Variable recompute : bool.
Variable output : string.
Variable can_open : filesystem -> string -> bool.

Local Abbreviation visit_dataset :=
  (visit_dataset run dataset load_all_results get_dataset
     compute_metrics_all_runs recompute).
Local Abbreviation collect :=
  (collect run dataset load_all_results get_dataset
     compute_metrics_all_runs recompute).
Local Abbreviation write_table := (write_table output can_open).
Local Abbreviation main :=
  (main run dataset load_all_results get_dataset
     compute_metrics_all_runs recompute output can_open).
Local Abbreviation yields :=
  (yields run dataset load_all_results get_dataset
     compute_metrics_all_runs recompute).

Implicit Types (dfs acc : list record) (fs : filesystem) (d : string).

Lemma collect_concat datasets acc dfs :
  collect datasets acc = inr dfs →
  ∃ rowss, Forall2 yields datasets rowss ∧ dfs = acc ++ concat rowss.
Proof.
  revert acc. induction datasets as [|d datasets IH]; intros acc; simpl.
  - intros [= <-]. exists []. split; [constructor | by rewrite app_nil_r].
  - destruct (visit_dataset d acc) as [e|dfs'] eqn:Hvisit; simpl; [done|].
    intros Hcollect.
    apply visit_dataset_yields in Hvisit as (rows & Hyields & ->).
    destruct (IH _ Hcollect) as (rowss & Hall & ->).
    exists (rows :: rowss). split; [by constructor|].
    simpl. by rewrite app_assoc.
Qed.

(** X4. The rows of the table follow the datasets: the records collected
    are those of the first dataset, in the order computed, then those of
    the second, and so on; a completed export writes the header and then
    one row per record, in that order. *)
Theorem export_rows_follow_datasets DATASETS fs dfs :
  collect DATASETS [] = inr dfs →
  ∃ rowss,
    Forall2 yields DATASETS rowss
    ∧ dfs = concat rowss
    ∧ (snd (main DATASETS fs) = Done →
       ∀ first, head dfs = Some first →
         files (fst (main DATASETS fs)) !! output
         = Some (map PStr (PyDict.keys first)
                 :: map (to_row (mkDictWriter (PyDict.keys first)))
                        (concat rowss))).
Proof.
  intros Hcollect.
  destruct (collect_concat _ _ _ Hcollect) as (rowss & Hall & Hdfs).
  simpl in Hdfs. exists rowss. split; [done|]. split; [done|].
  unfold DataExport.main. rewrite Hcollect. rewrite <- Hdfs.
  intros HDone first Hfirst. destruct dfs as [|first' rest]; [done|].
  injection Hfirst as ->.
  apply write_table_Done in HDone as (_ & _ & ->). simpl. apply lookup_insert_eq.
Qed.






End ExportBehaviour.

(** *** data_export.py: the name of the output file *)

Section OsPathFacts.

Import OsPath.

Implicit Types (s p : string) (c : ascii) (n : nat).

Lemma append_cons c s p : String c s +:+ p = String c (s +:+ p).
Proof. reflexivity. Qed.

Lemma append_nil_r s : s +:+ EmptyString = s.
Proof. induction s as [|c s IH]; [done|]. by rewrite append_cons, IH. Qed.

Lemma take_drop n s : take n s +:+ drop n s = s.
Proof.
  revert n. induction s as [|c s IH]; intros [|n]; simpl; try done.
  by rewrite append_cons, IH.
Qed.

Lemma rfind_lower c s : (-1 <= rfind c s)%Z.
Proof.
  induction s as [|c' s IH]; simpl; [lia|].
  destruct (0 <=? rfind c s)%Z eqn:E; [lia|]. destruct (Ascii.eqb c' c); lia.
Qed.

Lemma rfind_absent c s : (rfind c s < 0)%Z ↔ contains c s = false.
Proof.
  induction s as [|c' s IH]; simpl; [split; [done | lia]|].
  pose proof (rfind_lower c s) as Hlow.
  destruct (0 <=? rfind c s)%Z eqn:E.
  - apply Z.leb_le in E. rewrite orb_false_iff. split; [lia|].
    intros [_ Hs]. apply IH in Hs. lia.
  - apply Z.leb_gt in E. apply IH in E as ->. rewrite orb_false_r.
    destruct (Ascii.eqb c' c); split; (done || lia).
Qed.

(** Nothing after the last [c] is a [c]. *)
Lemma rfind_drop c s :
  (0 <= rfind c s)%Z →
  ∃ e, drop (Z.to_nat (rfind c s)) s = String c e ∧ contains c e = false.
Proof.
  induction s as [|c' s IH]; simpl; [lia|].
  destruct (0 <=? rfind c s)%Z eqn:E.
  - apply Z.leb_le in E. intros _. destruct (IH E) as (e & He & Hnone).
    exists e. split; [|done].
    replace (Z.to_nat (rfind c s + 1)) with (S (Z.to_nat (rfind c s))) by lia.
    done.
  - apply Z.leb_gt in E. destruct (Ascii.eqb c' c) eqn:Hc; [|lia].
    intros _. apply Ascii.eqb_eq in Hc as ->. exists s. split; [done|].
    by apply rfind_absent.
Qed.

Lemma contains_drop_after c s n :
  (rfind c s < Z.of_nat n)%Z → contains c (drop n s) = false.
Proof.
  revert n. induction s as [|c' s IH]; intros n; simpl.
  - by destruct n.
  - pose proof (rfind_lower c s) as Hlow.
    destruct n as [|n]; simpl.
    + destruct (0 <=? rfind c s)%Z eqn:E; [apply Z.leb_le in E; lia|].
      apply Z.leb_gt in E. destruct (Ascii.eqb c' c); [lia|].
      intros _. by apply rfind_absent.
    + intros Hlt. apply IH.
      destruct (0 <=? rfind c s)%Z eqn:E; [lia|]. apply Z.leb_gt in E. lia.
Qed.

Lemma rstrip_empty c s : rstrip c s = EmptyString → all_chars c s = true.
Proof.
  induction s as [|c' s IH]; simpl; [done|].
  destruct (rstrip c s) eqn:E; [|done].
  destruct (Ascii.eqb c' c); [|done]. intros _. by apply IH.
Qed.

Lemma dirname_head_not_empty c h :
  (if negb (String.eqb (String c h) "") && negb (all_chars "/" (String c h))
   then rstrip "/" (String c h) else String c h) ≠ EmptyString.
Proof.
  destruct (all_chars "/" (String c h)) eqn:Hall.
  - by rewrite andb_false_r.
  - rewrite andb_true_r. change (String.eqb (String c h) "") with false.
    intros Hempty%rstrip_empty. congruence.
Qed.

(** A path has an empty directory part exactly when it has no slash. *)
Lemma dirname_empty p : dirname p = EmptyString ↔ contains "/" p = false.
Proof.
  unfold dirname. split.
  - intros Hdir. apply rfind_absent.
    destruct (Z.ltb_spec (rfind "/" p) 0) as [|Hfound]; [done|]. exfalso.
    destruct p as [|c p]; [simpl in Hfound; lia|].
    remember (rfind "/" (String c p)) as r eqn:Hr. clear Hr.
    replace (Z.to_nat (r + 1)) with (S (Z.to_nat r)) in Hdir by lia.
    cbn [take] in Hdir. by apply dirname_head_not_empty in Hdir.
  - intros Hnone. apply rfind_absent in Hnone.
    pose proof (rfind_lower "/" p).
    replace (rfind "/" p) with (-1)%Z by lia. simpl. by destruct p.
Qed.

(** [splitext] cuts the path in two, and the second part is empty or the
    last dot of the file name with what follows it. *)
Lemma splitext_spec p :
  ∃ name ext,
    splitext p = (name, ext)
    ∧ p = name +:+ ext
    ∧ (ext = EmptyString
       ∨ ∃ e, ext = String "." e ∧ contains "." e = false
              ∧ contains "/" e = false)
    ∧ (contains "/" p = false → startswith "/" (name +:+ "-") = false).
Proof.
  assert (∀ q, contains "/" p = false → (q = p ∨ ∃ n, q = take n p) →
               startswith "/" (q +:+ "-") = false) as Hstart.
  { intros q Hnone Hq. destruct p as [|c p].
    - destruct Hq as [->|[[|n] ->]]; done.
    - simpl in Hnone. apply orb_false_iff in Hnone as [Hc _].
      destruct Hq as [->|[[|n] ->]]; done. }
  unfold splitext.
  destruct (rfind "/" p <? rfind "." p)%Z eqn:Hlt;
    [destruct (finds_name _ _ p)|].
  - apply Z.ltb_lt in Hlt. pose proof (rfind_lower "/" p) as Hsep.
    destruct (rfind_drop "." p) as (e & He & Hnodot); [lia|].
    eexists _, _. split; [done|]. split; [by rewrite take_drop|].
    split; [|intros; apply Hstart; eauto].
    right. exists e. split; [done|]. split; [done|].
    assert (contains "/" (drop (Z.to_nat (rfind "." p)) p) = false) as Hnone
      by (apply contains_drop_after; lia).
    rewrite He in Hnone. simpl in Hnone. done.
  - exists p, EmptyString. rewrite append_nil_r.
    split; [done|]. split; [done|]. split; [by left|]. intros; apply Hstart; eauto.
  - exists p, EmptyString. rewrite append_nil_r.
    split; [done|]. split; [done|]. split; [by left|]. intros; apply Hstart; eauto.
Qed.

End OsPathFacts.

Section ExportPathFacts.

Import OsPath ExportPath.

Lemma startswith_append c a d b b' :
  startswith c (a +:+ String d b) = startswith c (a +:+ String d b').
Proof. by destruct a. Qed.

(** X8. The name of the output file.  Without [--output] (or with an empty
    one) it is [reports/data-<date>.csv].  Otherwise the date goes in
    before the extension of the given name, the extension being the last
    dot of the file name and what follows it, if any; and a name without a
    directory part is put under [reports/]. *)
Theorem output_file_inserts_date output now :
  (Plot.truthy output = false →
   output_file output now = "reports/data-" +:+ get_date_str now +:+ ".csv")
  ∧ (∀ given, output = Some given → given ≠ "" →
       ∃ name ext,
         given = name +:+ ext
         ∧ (ext = ""
            ∨ ∃ e, ext = String "." e ∧ contains "." e = false
                   ∧ contains "/" e = false)
         ∧ output_file output now
           = (if contains "/" given then "" else "reports/")
             +:+ name +:+ "-" +:+ get_date_str now +:+ ext).
Proof.
  split.
  - intros Hnone. unfold output_file. by rewrite Hnone.
  - intros given -> Hgiven. unfold output_file. simpl.
    apply String.eqb_neq in Hgiven as ->. simpl.
    destruct (splitext_spec given) as (name & ext & -> & Hcat & Hext & Hstart).
    exists name, ext. split; [done|]. split; [done|].
    destruct (contains "/" given) eqn:Hslash.
    + destruct (String.eqb (dirname given) "") eqn:Hdir; [|done].
      apply String.eqb_eq, dirname_empty in Hdir. congruence.
    + rewrite (proj2 (dirname_empty given) Hslash). simpl.
      unfold join.
      change ("-" +:+ get_date_str now +:+ ext)
        with (String "-" (get_date_str now +:+ ext)).
      rewrite (startswith_append _ _ _ _ EmptyString), (Hstart eq_refl).
      reflexivity.
Qed.

Lemma digit_inj a b : (a < 10)%nat → (b < 10)%nat → digit a = digit b → a = b.
Proof.
  intros Ha Hb Heq. apply (f_equal nat_of_ascii) in Heq. unfold digit in Heq.
  rewrite !nat_ascii_embedding in Heq by lia. lia.
Qed.

Lemma two_digits_inj a b :
  (a < 100)%nat → (b < 100)%nat → two_digits a = two_digits b → a = b.
Proof.
  intros Ha Hb. unfold two_digits.
  pose proof (Nat.div_mod_eq a 10) as Ea. pose proof (Nat.div_mod_eq b 10) as Eb.
  assert (a / 10 < 10 ∧ b / 10 < 10)%nat as [Hta Htb]
    by (split; apply Nat.Div0.div_lt_upper_bound; lia).
  assert (a mod 10 < 10 ∧ b mod 10 < 10)%nat as [Hua Hub]
    by (split; apply Nat.mod_upper_bound; lia).
  revert Ea Eb Hta Htb Hua Hub.
  generalize (a / 10)%nat (b / 10)%nat (a mod 10)%nat (b mod 10)%nat.
  intros ta tb ua ub Ea Eb Hta Htb Hua Hub [= Htens Hunits].
  apply digit_inj in Htens; [|done..]. apply digit_inj in Hunits; [|done..]. lia.
Qed.

(** X9. [get_date_str] is six decimal digits, and it tells days apart:
    two dates with the same string have the same day, the same month and
    the same year within the century. *)
Theorem get_date_str_is_yymmdd now :
  (month now < 100)%nat → (day now < 100)%nat →
  String.length (get_date_str now) = 6%nat
  ∧ Forall (fun c => (48 ≤ nat_of_ascii c ≤ 57)%nat)
      (String.list_ascii_of_string (get_date_str now))
  ∧ ∀ now', (month now' < 100)%nat → (day now' < 100)%nat →
      get_date_str now = get_date_str now' →
      (year now mod 100 = year now' mod 100)%nat
      ∧ month now = month now' ∧ day now = day now'.
Proof.
  intros Hm Hd.
  assert (∀ n, (n < 10)%nat → (48 ≤ nat_of_ascii (digit n) ≤ 57)%nat) as Hdigit.
  { intros n Hn. unfold digit. rewrite nat_ascii_embedding by lia. lia. }
  assert (∀ y, y mod 100 < 100)%nat as Hy
    by (intros y; apply Nat.mod_upper_bound; lia).
  split; [done|]. split.
  - unfold get_date_str, two_digits.
    cbn [String.append String.list_ascii_of_string].
    repeat (constructor;
            [apply Hdigit;
             first [apply Nat.Div0.div_lt_upper_bound; by auto
                   | apply Nat.mod_upper_bound; lia]|]).
    constructor.
  - intros now' Hm' Hd' Heq.
    unfold get_date_str in Heq.
    assert (∀ a b s t, two_digits a +:+ s = two_digits b +:+ t →
                       two_digits a = two_digits b ∧ s = t) as Hsplit.
    { intros a b s t. unfold two_digits.
      generalize (digit (a / 10)) (digit (a mod 10))
                 (digit (b / 10)) (digit (b mod 10)).
      intros c1 c2 d1 d2 [= -> -> Hst]. split; [done | exact Hst]. }
    apply Hsplit in Heq as [Hyy Heq]. apply Hsplit in Heq as [Hmm Hdd].
    split; [by apply two_digits_inj|].
    split; by apply two_digits_inj.
Qed.

End ExportPathFacts.

(** *** plot.py *)

Lemma append_length s p :
  String.length (s +:+ p) = (String.length s + String.length p)%nat.
Proof.
  induction s as [|c s IH]; [done|]. rewrite append_cons. simpl. by rewrite IH.
Qed.

Lemma append_cancel_l p s t : p +:+ s = p +:+ t → s = t.
Proof.
  induction p as [|c p IH]; [done|]. rewrite !append_cons. intros [= H]. auto.
Qed.

Lemma append_cancel_r p s t : s +:+ p = t +:+ p → s = t.
Proof.
  revert t. induction s as [|c s IH]; intros [|d t] Heq; [done| | |].
  - apply (f_equal String.length) in Heq.
    rewrite !append_length in Heq. simpl in Heq. lia.
  - apply (f_equal String.length) in Heq.
    rewrite !append_length in Heq. simpl in Heq. lia.
  - rewrite !append_cons in Heq. injection Heq as -> Heq. f_equal. by apply IH.
Qed.

Lemma get_elem_of_NoDup {V} (d : PyDict.dict V) k v :
  NoDup (PyDict.keys d) → (k, v) ∈ d ↔ PyDict.get d k = Some v.
Proof.
  unfold PyDict.keys. induction d as [|[k0 v0] d IH]; simpl.
  - intros _. split; [by intros ?%elem_of_nil | done].
  - intros [Hk0 Hd]%NoDup_cons. rewrite elem_of_cons.
    destruct (String.eqb k0 k) eqn:E.
    + apply String.eqb_eq in E as ->. split.
      * intros [[= ->]|Hin]; [done|]. exfalso. apply Hk0.
        apply list_elem_of_fmap. by exists (k, v).
      * intros [= ->]. by left.
    + apply String.eqb_neq in E. rewrite <- (IH Hd). split.
      * intros [[= -> ->]|Hin]; done.
      * by right.
Qed.

Lemma keys_set_NoDup {V} (d : PyDict.dict V) k v :
  NoDup (PyDict.keys d) → NoDup (PyDict.keys (PyDict.set d k v)).
Proof.
  induction d as [|[k0 v0] d IH]; simpl.
  - intros _. apply NoDup_singleton.
  - intros [Hk0 Hd]%NoDup_cons. destruct (String.eqb k0 k) eqn:E; simpl.
    + apply String.eqb_eq in E as ->. by apply NoDup_cons.
    + apply String.eqb_neq in E. apply NoDup_cons. split; [|by apply IH].
      intros [?|?]%keys_set; done.
Qed.

Lemma Qmin_list_bounds (m : Q) (l : list Q) :
  (0 < m)%Q → Forall (fun x => 0 < x)%Q l →
  (0 < Plot.Qmin_list (m :: l) ∧ Plot.Qmin_list (m :: l) <= m)%Q.
Proof.
  intros Hm Hl. unfold Plot.Qmin_list. simpl.
  split; [|apply Q.le_min_l].
  apply Q.min_glb_lt; [done|].
  induction Hl as [|x l Hx _ IH]; simpl; [done|]. by apply Q.min_glb_lt.
Qed.

Lemma Qmax_list_bounds (m : Q) (l : list Q) :
  (m < 1)%Q → Forall (fun x => x < 1)%Q l →
  (Plot.Qmax_list (m :: l) < 1 ∧ m <= Plot.Qmax_list (m :: l))%Q.
Proof.
  intros Hm Hl. unfold Plot.Qmax_list. simpl.
  split; [|apply Q.le_max_l].
  apply Q.max_lub_lt; [done|].
  induction Hl as [|x l Hx _ IH]; simpl; [done|]. by apply Q.max_lub_lt.
Qed.

Lemma filter_Forall (f : Q → bool) (P : Q → Prop) (l : list Q) :
  (∀ x, f x = true → P x) → Forall P (List.filter f l).
Proof.
  intros Hf. induction l as [|x l IH]; simpl; [constructor|].
  destruct (f x) eqn:E; [constructor; auto | done].
Qed.

Lemma min_x_bounds (xss : list (list Q)) (m : Q) :
  (0 < m ∧ m <= 1)%Q →
  (0 < fold_left (fun m xs =>
                    Plot.Qmin_list (m :: List.filter (fun x => Qltb 0 x) xs))
         xss m
   ∧ fold_left (fun m xs =>
                  Plot.Qmin_list (m :: List.filter (fun x => Qltb 0 x) xs))
       xss m <= 1)%Q.
Proof.
  revert m. induction xss as [|xs xss IH]; intros m [Hpos Hle]; simpl; [done|].
  destruct (Qmin_list_bounds m (List.filter (fun x => Qltb 0 x) xs) Hpos)
    as [Hpos' Hle'].
  { apply filter_Forall. intros x. apply Qltb_lt. }
  apply IH. split; [done | lra].
Qed.

Lemma max_x_bounds (xss : list (list Q)) (m : Q) :
  (0 <= m ∧ m < 1)%Q →
  (0 <= fold_left (fun m xs =>
                     Plot.Qmax_list (m :: List.filter (fun x => Qltb x 1) xs))
          xss m
   ∧ fold_left (fun m xs =>
                  Plot.Qmax_list (m :: List.filter (fun x => Qltb x 1) xs))
       xss m < 1)%Q.
Proof.
  revert m. induction xss as [|xs xss IH]; intros m [Hpos Hlt]; simpl; [done|].
  destruct (Qmax_list_bounds m (List.filter (fun x => Qltb x 1) xs) Hlt)
    as [Hlt' Hge'].
  { apply filter_Forall. intros x. apply Qltb_lt. }
  apply IH. split; [lra | done].
Qed.

Section PlotFacts.

Import Metrics Reducer Plot.

Variable metrics : string → metric_entry.
Variable float : Type.
Variable neg_mean_log : list Q → float.
Variable sorted_by :
  (string → float) → ∀ l : list string, {l' : list string | l' ≡ₚ l}.
Variable style : Type.
Variable float_of_string : string → option float.
Variable known_scale : string → bool.
Variable savefig_ok : string → figure → bool.

Local Abbreviation pointset_of := (pointset_of metrics).
Local Abbreviation plot_order :=
  (plot_order metrics float neg_mean_log sorted_by).
Local Abbreviation drawing := (drawing metrics float neg_mean_log sorted_by).
Local Abbreviation lookup_styles := (lookup_styles style).
Local Abbreviation set_xscale :=
  (set_xscale float float_of_string known_scale).
Local Abbreviation create_plot :=
  (create_plot metrics float neg_mean_log sorted_by style float_of_string
     known_scale savefig_ok).
Local Abbreviation comparison_plot :=
  (comparison_plot metrics float neg_mean_log sorted_by style float_of_string
     known_scale savefig_ok).
Local Abbreviation comparison_loop :=
  (comparison_loop metrics float neg_mean_log sorted_by style float_of_string
     known_scale savefig_ok).
Local Abbreviation comparison_plots :=
  (comparison_plots metrics float neg_mean_log sorted_by style float_of_string
     known_scale savefig_ok).
Local Abbreviation full_plot :=
  (full_plot metrics float neg_mean_log sorted_by style float_of_string
     known_scale savefig_ok).
Local Abbreviation main :=
  (main metrics float neg_mean_log sorted_by style float_of_string
     known_scale savefig_ok).

Implicit Types (args : Args) (unique : list string) (g : grouping).
Implicit Types (runs all_data : PyDict.dict (list MetricRecord)).
Implicit Types (linestyles : PyDict.dict style) (fig : figure).

(** **** Groups *)

Lemma group_step_last args_algo unique algo :
  group_algorithms args_algo (unique ++ [algo])
  = group_step args_algo (group_algorithms args_algo unique) algo.
Proof. unfold group_algorithms. by rewrite fold_left_app. Qed.

(** The groups are the prefixes of the known algorithms, each once, and
    [args_group] is the prefix of [args.algo] when it is a known algorithm. *)
Lemma group_algorithms_spec args_algo unique :
  let g := group_algorithms args_algo unique in
  NoDup (PyDict.keys (grouped_algos g))
  ∧ (∀ base, base ∈ PyDict.keys (grouped_algos g)
             ↔ ∃ algo, algo ∈ unique ∧ split_base algo = base)
  ∧ (∀ algo, PyDict.get (algo_to_group g) algo
             = if decide (algo ∈ unique) then Some (split_base algo) else None)
  ∧ args_group g
    = if decide (args_algo ∈ unique) then Some (split_base args_algo) else None.
Proof.
  induction unique as [|x unique IH] using rev_ind.
  - simpl. split; [apply NoDup_nil_2|]. split; [|done].
    intros base. split; [by intros ?%elem_of_nil|].
    by intros (? & ?%elem_of_nil & _).
  - rewrite group_step_last. destruct IH as (Hnodup & Hkeys & Hget & _).
    set (g := group_algorithms args_algo unique) in *. simpl.
    assert (∀ algo, PyDict.get (PyDict.set (algo_to_group g) x (split_base x)) algo
                    = if decide (algo ∈ unique ++ [x])
                      then Some (split_base algo) else None) as Hget'.
    { intros algo. destruct (decide (x = algo)) as [->|Hne].
      - rewrite get_set_eq, decide_True; [done|].
        apply elem_of_app. right. apply list_elem_of_here.
      - rewrite get_set_ne, Hget by done.
        destruct (decide (algo ∈ unique)) as [Hin|Hout].
        + rewrite decide_True; [done|]. apply elem_of_app. by left.
        + rewrite decide_False; [done|].
          intros [?|?%list_elem_of_singleton]%elem_of_app; done. }
    split; [by apply keys_set_NoDup|]. split; [|split; [done | apply Hget']].
    intros base. rewrite keys_set, Hkeys. split.
    + intros [->|(algo & Hin & <-)].
      * exists x. split; [|done]. apply elem_of_app. right. apply list_elem_of_here.
      * exists algo. split; [|done]. apply elem_of_app. by left.
    + intros (algo & [Hin|Hin]%elem_of_app & <-).
      * right. by exists algo.
      * apply list_elem_of_singleton in Hin as ->. by left.
Qed.

(** X10. The group name of an algorithm is its longest prefix without a
    dash: what follows it in the name is nothing or starts with a dash, and
    a name without a dash is its own group name. *)
Theorem split_base_is_longest_dashless_prefix (algo : string) :
  OsPath.contains "-" (split_base algo) = false
  ∧ (∃ rest, algo = split_base algo +:+ rest
             ∧ (rest = "" ∨ OsPath.startswith "-" rest = true))
  ∧ (OsPath.contains "-" algo = false → split_base algo = algo)
  ∧ split_base (split_base algo) = split_base algo.
Proof.
  induction algo as [|c s (Hfree & (rest & Hrest & Hdash) & Hsame & Hidem)];
    simpl.
  - split; [done|]. split; [by exists ""; split; [|left]|]. done.
  - destruct (Ascii.eqb c "-") eqn:Hc; simpl.
    + apply Ascii.eqb_eq in Hc as ->.
      split; [done|]. split; [|done].
      exists (String "-" s). split; [done | by right].
    + rewrite Hc. simpl. split; [done|]. split; [|split].
      * exists rest. rewrite append_cons. split; [by rewrite <- Hrest | done].
      * intros Hnone. by rewrite Hsame.
      * by rewrite Hidem.
Qed.

(** X11. The groups partition the known algorithms by group name: the
    group kept under a name lists, in their order, exactly the known
    algorithms of that name, and there is no empty group. *)
Theorem groups_partition_known_algorithms args_algo unique base group :
  (base, group) ∈ grouped_algos (group_algorithms args_algo unique)
  ↔ group ≠ []
    ∧ group = filter (fun algo => split_base algo = base) unique.
Proof.
  assert (∀ base',
            PyDict.get (grouped_algos (group_algorithms args_algo unique)) base'
            = match filter (fun algo => split_base algo = base') unique with
              | [] => None
              | members => Some members
              end) as Hget.
  { induction unique as [|x unique IH] using rev_ind; intros base'; [done|].
    rewrite group_step_last, filter_app, filter_cons, filter_nil. simpl.
    destruct (decide (split_base x = base')) as [<-|Hne].
    - rewrite get_set_eq, IH.
      destruct (filter _ unique); simpl; [done|]. by destruct (_ ++ _) eqn:E.
    - rewrite get_set_ne, IH by done. by rewrite app_nil_r. }
  rewrite get_elem_of_NoDup by apply group_algorithms_spec.
  rewrite Hget. destruct (filter _ unique) as [|algo members].
  - split; [done | by intros [? ->]].
  - split; [by intros [= <-] | by intros [_ ->]].
Qed.

Lemma comparison_path_inj args args_algo base base' :
  comparison_path args args_algo base = comparison_path args args_algo base' →
  base = base'.
Proof.
  unfold comparison_path. intros Heq.
  do 4 apply append_cancel_l in Heq. by apply append_cancel_r in Heq.
Qed.

(** **** The runs of a comparison *)

Lemma filter_results_keys allowed (runs : PyDict.dict (list MetricRecord)) known :
  known ∈ PyDict.keys (filter_results allowed runs)
  ↔ known ∈ PyDict.keys runs ∧ known ∈ allowed.
Proof.
  unfold filter_results, PyDict.keys.
  induction runs as [|[a data] runs IH]; simpl.
  - rewrite elem_of_nil. tauto.
  - destruct (decide (a ∈ allowed)) as [Hin|Hout].
    + rewrite bool_decide_eq_true_2 by done. simpl.
      rewrite !elem_of_cons, IH. split; [|tauto].
      intros [->|[? ?]]; [by split; [left|] | by split; [right|]].
    + rewrite bool_decide_eq_false_2 by done. rewrite elem_of_cons, IH.
      split; [tauto|]. intros [[->|?] ?]; done.
Qed.

Lemma get_filter_results allowed (runs : PyDict.dict (list MetricRecord)) algo :
  algo ∈ allowed →
  PyDict.get (filter_results allowed runs) algo = PyDict.get runs algo.
Proof.
  intros Hallowed. unfold filter_results.
  induction runs as [|[a data] runs IH]; simpl; [done|].
  destruct (decide (a ∈ allowed)) as [Hin|Hout].
  - rewrite bool_decide_eq_true_2 by done. simpl. by rewrite IH.
  - rewrite bool_decide_eq_false_2 by done.
    destruct (String.eqb a algo) eqn:E; [|done].
    apply String.eqb_eq in E as ->. done.
Qed.

(** **** What [create_plot] draws, and when it raises *)

Lemma plot_order_Permutation all_data xn yn :
  plot_order all_data xn yn ≡ₚ PyDict.keys all_data.
Proof. unfold Plot.plot_order. by destruct (sorted_by _ _) as [l Hl]. Qed.

Lemma plot_order_elem_of all_data xn yn algo :
  algo ∈ plot_order all_data xn yn ↔ algo ∈ PyDict.keys all_data.
Proof. by rewrite plot_order_Permutation. Qed.

(** The figure has one line per algorithm, in the order of line 32. *)
Lemma drawing_labels all_data raw x_scale y_scale xn yn :
  label <$> curves (drawing all_data raw x_scale y_scale xn yn)
  = plot_order all_data xn yn.
Proof.
  unfold Plot.drawing. cbn [curves].
  generalize (plot_order all_data xn yn).
  intros l. induction l as [|a l IH]; simpl; [done | by f_equal].
Qed.

(** The loop gets through exactly when every algorithm has a line style,
    and otherwise raises [KeyError] on one that has none. *)
Lemma lookup_styles_cases linestyles order :
  match lookup_styles linestyles order with
  | inr _ => ∀ algo, algo ∈ order → algo ∈ PyDict.keys linestyles
  | inl e =>
      ∃ algo, e = KeyError algo ∧ algo ∈ order
              ∧ algo ∉ PyDict.keys linestyles
  end.
Proof.
  induction order as [|a order IH]; simpl.
  - by intros algo ?%elem_of_nil.
  - destruct (PyDict.get linestyles a) as [st|] eqn:Hget.
    + destruct (lookup_styles linestyles order) as [e|[]].
      * destruct IH as (algo & -> & Hin & Hout). exists algo.
        split; [done|]. split; [by right | done].
      * intros algo [->|Hin]%elem_of_cons; [|by apply IH].
        apply get_is_Some. by exists st.
    + exists a. split; [done|]. split; [by left|].
      intros [st Hst]%get_is_Some. congruence.
Qed.

(** Lines 55-76 raise nothing but [IndexError], on the empty scale, and
    [ValueError]. *)
Lemma set_xscale_cases x_scale :
  match set_xscale x_scale with
  | inr _ => x_scale ≠ ""
  | inl e =>
      (e = IndexError ∧ x_scale = "")
      ∨ (∃ c rest, x_scale = String c rest
                   ∧ (e = ValueError (NotAFloat rest)
                      ∨ e = ValueError (UnknownScale x_scale)))
  end.
Proof.
  destruct x_scale as [|c rest]; simpl; [by left|].
  destruct (Ascii.eqb c "a").
  - destruct (float_of_string rest); [done|]. right. exists c, rest. eauto.
  - destruct (known_scale (String c rest)); [done|]. right. exists c, rest. eauto.
Qed.

(** [create_plot] saves a figure exactly when every algorithm of its data
    has a line style, the x scale is accepted and [plt.savefig] goes
    through; the figure is then the one of lines 19-95. *)
Lemma create_plot_ret all_data raw x_scale y_scale xn yn fn_out linestyles
    batch fig :
  create_plot all_data raw x_scale y_scale xn yn fn_out linestyles batch = ret fig
  ↔ (∀ algo, algo ∈ PyDict.keys all_data → algo ∈ PyDict.keys linestyles)
    ∧ set_xscale x_scale = ret tt
    ∧ savefig_ok fn_out (drawing all_data raw x_scale y_scale xn yn) = true
    ∧ fig = drawing all_data raw x_scale y_scale xn yn.
Proof.
  unfold Plot.create_plot.
  pose proof (lookup_styles_cases linestyles (plot_order all_data xn yn)) as Hstyles.
  destruct (lookup_styles linestyles (plot_order all_data xn yn)) as [e|[]]; simpl.
  - destruct Hstyles as (algo & _ & Hin & Hout). split; [done|].
    intros (Hall & _). exfalso. apply Hout, Hall. by apply plot_order_elem_of in Hin.
  - destruct (set_xscale x_scale) as [e|[]]; simpl.
    + split; [done | by intros (_ & ? & _)].
    + destruct (savefig_ok fn_out _) eqn:Hsave.
      * split.
        -- intros [= <-]. split; [|done].
           intros algo Hin. apply Hstyles. by apply plot_order_elem_of.
        -- by intros (_ & _ & _ & ->).
      * split; [done | by intros (_ & _ & ? & _)].
Qed.

(** The exceptions of [create_plot]: never the [Exception] of line 173. *)
Lemma create_plot_error all_data raw x_scale y_scale xn yn fn_out linestyles
    batch e :
  create_plot all_data raw x_scale y_scale xn yn fn_out linestyles batch = inl e →
  (∃ algo, e = KeyError algo ∧ algo ∈ PyDict.keys all_data
           ∧ algo ∉ PyDict.keys linestyles)
  ∨ (e = IndexError ∧ x_scale = "")
  ∨ (∃ why, e = ValueError why)
  ∨ (∃ who, e = LibraryError who).
Proof.
  unfold Plot.create_plot.
  pose proof (lookup_styles_cases linestyles (plot_order all_data xn yn)) as Hstyles.
  destruct (lookup_styles linestyles (plot_order all_data xn yn)) as [e'|[]]; simpl.
  - intros [= <-]. destruct Hstyles as (algo & -> & Hin & Hout). left.
    exists algo. split; [done|]. split; [by apply plot_order_elem_of in Hin | done].
  - pose proof (set_xscale_cases x_scale) as Hscale.
    destruct (set_xscale x_scale) as [e'|[]]; simpl.
    + intros [= <-]. right.
      destruct Hscale as [[-> ->]|(c & rest & _ & [->| ->])]; eauto.
    + destruct (savefig_ok fn_out _); [done|]. intros [= <-]. eauto.
Qed.

Lemma create_plot_labels all_data raw x_scale y_scale xn yn fn_out linestyles
    batch fig algo :
  create_plot all_data raw x_scale y_scale xn yn fn_out linestyles batch = ret fig →
  algo ∈ label <$> curves fig ↔ algo ∈ PyDict.keys all_data.
Proof.
  intros (_ & _ & _ & ->)%create_plot_ret.
  by rewrite drawing_labels, plot_order_elem_of.
Qed.

(** **** The comparison plots *)

Lemma comparison_plot_ret args args_algo runs linestyles base group path fig :
  comparison_plot args args_algo runs linestyles base group = ret (path, fig)
  ↔ path = comparison_path args args_algo base
    ∧ create_plot (filter_results (args_algo :: group) runs) (raw args)
        (x_scale args) (y_scale args) (x_axis args) (y_axis args)
        (comparison_path args args_algo base) linestyles (batch args)
      = ret fig.
Proof.
  unfold Plot.comparison_plot.
  destruct (create_plot _ _ _ _ _ _ _ _ _) as [e|fig']; simpl.
  - split; [done | by intros [_ ?]].
  - split; [by intros [= <- <-] | by intros [-> [= ->]]].
Qed.

Lemma comparison_plot_error args args_algo runs linestyles base group e :
  comparison_plot args args_algo runs linestyles base group = inl e →
  create_plot (filter_results (args_algo :: group) runs) (raw args)
    (x_scale args) (y_scale args) (x_axis args) (y_axis args)
    (comparison_path args args_algo base) linestyles (batch args)
  = inl e.
Proof.
  unfold Plot.comparison_plot.
  by destruct (create_plot _ _ _ _ _ _ _ _ _) as [e'|fig']; simpl; intros [= ->].
Qed.

(** The loop of lines 195-210 saves, in the order of the groups, one plot
    per group other than the group of [args.algo], up to the first call
    that raises. *)
Lemma comparison_loop_spec args args_algo group_of_algo runs linestyles
    (items : list (string * list string)) (written : list saved) :
  let r :=
    comparison_loop args args_algo group_of_algo runs linestyles items written in
  let paths :=
    comparison_path args args_algo
    <$> filter (fun base => Some base ≠ group_of_algo) (PyDict.keys items) in
  ∃ plots,
    fst r = written ++ plots
    ∧ Forall (fun plot =>
                ∃ base group,
                  (base, group) ∈ items ∧ Some base ≠ group_of_algo
                  ∧ comparison_plot args args_algo runs linestyles base group
                    = ret plot) plots
    ∧ (fst <$> plots) `prefix_of` paths
    ∧ (snd r = Done → fst <$> plots = paths)
    ∧ (∀ e, snd r = Raised e →
         ∃ base group,
           (base, group) ∈ items
           ∧ comparison_plot args args_algo runs linestyles base group = inl e).
Proof.
  revert written. unfold PyDict.keys.
  induction items as [|[base group] items IH]; intros written; simpl.
  - exists []. rewrite app_nil_r. split; [done|]. split; [constructor|].
    split; [done|]. split; [done|]. by intros e.
  - rewrite filter_cons. simpl.
    destruct (decide (Some base = group_of_algo)) as [Heq|Hne].
    + rewrite bool_decide_eq_true_2 by done.
      rewrite decide_False by (by intros ?).
      destruct (IH written) as (plots & Hfst & Hall & Hpre & HDone & Herr).
      exists plots. split; [done|]. split; [|split; [done|split; [done|]]].
      * eapply Forall_impl; [exact Hall|]. simpl.
        intros plot (b & gr & Hin & ? & ?). exists b, gr.
        split; [by right | done].
      * intros e He. destruct (Herr e He) as (b & gr & Hin & ?).
        exists b, gr. split; [by right | done].
    + rewrite bool_decide_eq_false_2 by done. rewrite decide_True by done.
      destruct (comparison_plot args args_algo runs linestyles base group)
        as [e|[path fig]] eqn:Hplot; simpl.
      * exists []. rewrite app_nil_r. split; [done|]. split; [constructor|].
        split; [apply prefix_nil|]. split; [done|].
        intros e' [= <-]. exists base, group. split; [by left | done].
      * destruct (IH (written ++ [(path, fig)]))
          as (plots & Hfst & Hall & Hpre & HDone & Herr).
        exists ((path, fig) :: plots).
        pose proof Hplot as [-> _]%comparison_plot_ret.
        split; [etrans; [exact Hfst|]; by rewrite <- app_assoc|].
        split; [|split; [|split]].
        -- constructor.
           ++ exists base, group. split; [by left | done].
           ++ eapply Forall_impl; [exact Hall|]. simpl.
              intros plot (b & gr & Hin & ? & ?). exists b, gr.
              split; [by right | done].
        -- simpl. by apply prefix_cons.
        -- intros Hr. simpl. f_equal. by apply HDone.
        -- intros e He. destruct (Herr e He) as (b & gr & Hin & ?).
           exists b, gr. split; [by right | done].
Qed.



(** **** What an invocation saves *)

(** C2, as the code has it.  The script raises "Nothing to plot", before
    any plot, when [compute_metrics] returned no algorithm at all, and on
    no other occasion: an algorithm in [runs] takes it past the check of
    line 172, whatever the point set of the algorithm turns out to be, and
    no later exception is this one. *)
Theorem plot_raises_exactly_without_runs args unique linestyles runs :
  (runs = [] →
   main args unique linestyles runs
   = ([], Raised (Exception "Nothing to plot")))
  ∧ (∀ msg, snd (main args unique linestyles runs) = Raised (Exception msg) →
       runs = [] ∧ msg = "Nothing to plot").
Proof.
  assert (∀ all_data raw x_scale y_scale xn yn fn_out batch msg,
            create_plot all_data raw x_scale y_scale xn yn fn_out linestyles batch
            ≠ inl (Exception msg)) as Hplot.
  { intros all_data raw x_scale y_scale xn yn fn_out batch msg Hraise.
    apply create_plot_error in Hraise
      as [(? & ? & _)|[[? _]|[[? ?]|[? ?]]]]; done. }
  split; [by intros ->|].
  intros msg. unfold Plot.main. destruct runs as [|r runs]; [by intros [= <-]|].
  destruct (truthy (algo args)).
  - unfold Plot.comparison_plots.
    destruct (comparison_loop_spec args (default "" (algo args))
                (args_group (group_algorithms (default "" (algo args)) unique))
                (r :: runs) linestyles
                (grouped_algos (group_algorithms (default "" (algo args)) unique))
                []) as (plots & _ & _ & _ & _ & Herr).
    destruct (comparison_loop _ _ _ _ _ _ _) as [comparisons [|e]]; simpl in *.
    + destruct (full_plot args (r :: runs) linestyles) as [e|full] eqn:Hfull;
        [|done].
      simpl. intros [= ->]. unfold Plot.full_plot in Hfull. by apply Hplot in Hfull.
    + intros [= ->].
      destruct (Herr _ eq_refl) as (base & group & _ & Hraise%comparison_plot_error).
      by apply Hplot in Hraise.
  - destruct (full_plot args (r :: runs) linestyles) as [e|full] eqn:Hfull;
      [|done].
    simpl. intros [= ->]. unfold Plot.full_plot in Hfull. by apply Hplot in Hfull.
Qed.



(** **** The plots *)

(** X2. Every comparison plot is the plot of one group other than the
    group of [args.algo], saved under that group's name, and its lines are
    those of [args.algo] and of the algorithms of the group that have runs. *)
Theorem comparison_plot_shows_algo_and_group args args_algo g runs linestyles
    path fig :
  (path, fig) ∈ fst (comparison_plots args args_algo g runs linestyles) →
  ∃ base group,
    (base, group) ∈ grouped_algos g
    ∧ Some base ≠ args_group g
    ∧ path = comparison_path args args_algo base
    ∧ ∀ known, known ∈ label <$> curves fig
               ↔ known ∈ PyDict.keys runs
                 ∧ (known = args_algo ∨ known ∈ group).
Proof.
  unfold Plot.comparison_plots.
  destruct (comparison_loop_spec args args_algo (args_group g) runs linestyles
              (grouped_algos g) []) as (plots & -> & Hall & _).
  simpl. intros Hin.
  destruct (proj1 (Forall_forall _ _) Hall _ Hin)
    as (base & group & Hgroup & Hne & [-> Hplot]%comparison_plot_ret).
  exists base, group. split; [done|]. split; [done|]. split; [done|].
  intros known.
  rewrite (create_plot_labels _ _ _ _ _ _ _ _ _ _ _ Hplot).
  rewrite filter_results_keys, elem_of_cons. tauto.
Qed.

(** X12. The comparison plots of one invocation are saved under names
    that differ from one another: none of them overwrites another. *)
Theorem comparison_plots_have_distinct_names args args_algo unique runs
    linestyles :
  NoDup (fst <$> fst (comparison_plots args args_algo
                        (group_algorithms args_algo unique) runs linestyles)).
Proof.
  unfold Plot.comparison_plots.
  destruct (comparison_loop_spec args args_algo
              (args_group (group_algorithms args_algo unique)) runs linestyles
              (grouped_algos (group_algorithms args_algo unique)) [])
    as (plots & -> & _ & [rest Hpre] & _).
  simpl.
  assert (NoDup ((fst <$> plots) ++ rest)) as Hnodup.
  { rewrite <- Hpre. apply NoDup_fmap_2.
    - intros base base'. apply comparison_path_inj.
    - apply NoDup_filter, group_algorithms_spec. }
  by apply NoDup_app in Hnodup as [? _].
Qed.

(** X13. A figure that [create_plot] saves has its x limits set like
    this.  Away from the logit scale they are the limits of the registry,
    the lower one raised to 0 when it is negative and the upper one lowered
    to 1 when it is larger: the lower limit is never negative and the upper
    one never above 1, and nothing keeps the lower one below 1 or the upper
    one above 0.  On the logit scale the lower limit lies in (0, 1] and the
    upper one in [0, 1).  No limit is set only when the scale is not logit
    and the registry gives none. *)
Theorem create_plot_clips_x_limits all_data raw x_scale y_scale xn yn fn_out
    linestyles batch fig :
  create_plot all_data raw x_scale y_scale xn yn fn_out linestyles batch = ret fig →
  match xlim fig with
  | Some (lo, hi) =>
      (0 <= lo ∧ hi <= 1)%Q
      ∧ (x_scale = "logit" → (0 < lo ∧ lo <= 1 ∧ 0 <= hi ∧ hi < 1)%Q)
      ∧ (x_scale ≠ "logit" →
         ∃ x0 x1, lim (metrics xn) = Some (x0, x1)
                  ∧ lo = Qmax x0 0 ∧ hi = Qmin x1 1)
  | None => x_scale ≠ "logit" ∧ lim (metrics xn) = None
  end.
Proof.
  intros (_ & _ & _ & ->)%create_plot_ret.
  unfold Plot.drawing. simpl.
  match goal with
  | |- context [fold_left ?fmin ?xss 1] =>
      assert (0 < fold_left fmin xss 1 ∧ fold_left fmin xss 1 <= 1)%Q as Hmin
  end.
  { apply min_x_bounds. split; lra. }
  match goal with
  | |- context [fold_left ?fmax ?xss 0] =>
      assert (0 <= fold_left fmax xss 0 ∧ fold_left fmax xss 0 < 1)%Q as Hmax
  end.
  { apply max_x_bounds. split; lra. }
  destruct (lim (metrics xn)) as [[x0 x1]|];
    destruct (String.eqb x_scale "logit") eqn:Hscale; simpl.
  - apply String.eqb_eq in Hscale.
    split; [split; lra|]. split; [intros _; split_and!; lra | done].
  - apply String.eqb_neq in Hscale.
    split; [split; [apply Q.le_max_r | apply Q.le_min_r]|].
    split; [done | intros _; by exists x0, x1].
  - apply String.eqb_eq in Hscale.
    split; [split; lra|]. split; [intros _; split_and!; lra | done].
  - by apply String.eqb_neq in Hscale.
Qed.

(** X14. A figure that [create_plot] saves has one line per algorithm of
    the data it was given, each algorithm once, with the frontier of that
    algorithm; the faded line of the raw points is there exactly under
    [--raw].  It is saved only if each of these algorithms has a line style
    and the x scale is accepted. *)
Theorem create_plot_draws_each_algorithm_once all_data raw x_scale y_scale
    xn yn fn_out linestyles batch fig :
  create_plot all_data raw x_scale y_scale xn yn fn_out linestyles batch = ret fig →
  label <$> curves fig ≡ₚ PyDict.keys all_data
  ∧ Forall (fun c =>
              line c = coords (frontier_points (pointset_of all_data xn yn (label c)))
              ∧ (is_Some (faded c) ↔ raw = true)) (curves fig)
  ∧ (∀ algo, algo ∈ PyDict.keys all_data → algo ∈ PyDict.keys linestyles)
  ∧ set_xscale x_scale = ret tt.
Proof.
  intros (Hstyles & Hscale & _ & ->)%create_plot_ret.
  split; [by rewrite drawing_labels, plot_order_Permutation|].
  split; [|done].
  unfold Plot.drawing. cbn [curves]. apply Forall_forall.
  intros c (algo & -> & _)%list_elem_of_fmap. simpl. split; [done|].
  destruct raw; split; (done || eauto || by intros [? ?]).
Qed.

(** X15. A comparison plot shows nothing of its own: each of its lines is
    a line of the full plot, with the same label, the same frontier and the
    same raw points. *)
Theorem comparison_plot_repeats_lines_of_full_plot args args_algo g runs
    linestyles path fig c :
  (path, fig) ∈ fst (comparison_plots args args_algo g runs linestyles) →
  c ∈ curves fig →
  c ∈ curves (drawing runs (raw args) (x_scale args) (y_scale args)
                (x_axis args) (y_axis args))
  ∧ ∀ full, full_plot args runs linestyles = ret full → c ∈ curves full.
Proof.
  unfold Plot.comparison_plots.
  destruct (comparison_loop_spec args args_algo (args_group g) runs linestyles
              (grouped_algos g) []) as (plots & -> & Hall & _).
  simpl. intros Hin Hc.
  destruct (proj1 (Forall_forall _ _) Hall _ Hin)
    as (base & group & _ & _ & [-> Hplot]%comparison_plot_ret).
  apply create_plot_ret in Hplot as (_ & _ & _ & ->).
  assert (c ∈ curves (drawing runs (raw args) (x_scale args) (y_scale args)
                        (x_axis args) (y_axis args))) as Hfull.
  { revert Hc. unfold Plot.drawing. cbn [curves].
    intros (algo & -> & Halgo)%list_elem_of_fmap.
    apply plot_order_elem_of, filter_results_keys in Halgo as [Hruns Hallowed].
    unfold Plot.pointset_of. rewrite (get_filter_results _ _ _ Hallowed).
    apply list_elem_of_fmap. exists algo. split; [done|].
    by apply plot_order_elem_of. }
  split; [done|].
  unfold Plot.full_plot. by intros full (_ & _ & _ & ->)%create_plot_ret.
Qed.

End PlotFacts.

(** *** The sample plots *)

(** C2, as stated, fails.  The only run loaded has no timing, so its metric
    record has no [qps]: the point set of its algorithm on the axes
    (k-nn, qps) is empty, and it is the only algorithm.  [runs] is not
    empty, though: the script does not raise, and saves a plot whose one
    line has no point. *)
Lemma plot_of_empty_point_sets_does_not_raise :
  let runs :=
    Metrics.compute_metrics 2 Sample.epsilon Sample.truth [Sample.untimed_run] in
  (∀ algo data, (algo, data) ∈ runs →
     Reducer.create_pointset Sample.metrics data "k-nn" "qps"
     = {| Reducer.frontier_points := []; Reducer.all_points := [] |})
  ∧ Sample.plot None [Sample.untimed_run]
    = ([("plots//glove.png",
         {| Plot.curves :=
              [{| Plot.label := "patann-a"; Plot.line := [];
                  Plot.faded := None |}];
            Plot.xlabel := "Recall";
            Plot.ylabel := "Queries per second (1/s)";
            Plot.xscale := "linear";
            Plot.yscale := "linear";
            Plot.xlim := Some (0, 1);
            Plot.ylim := None |})], Done).
Proof.
  split; [|reflexivity].
  intros algo data Hin. vm_compute in Hin.
  apply list_elem_of_singleton in Hin. injection Hin as -> ->. reflexivity.
Qed.



(** With [-o] naming a comparison image, the full plot is saved over it:
    three calls of [plt.savefig], two files. *)
Example plot_output_over_a_comparison_image :
  let args :=
    Sample.with_output "plots//patann-a-vs-hnsw-glove.png"
      (Sample.plot_args (Some "patann-a")) in
  let written :=
    fst (Sample.plot_of args [Sample.untimed_run; Sample.timed_run]) in
  fst <$> written
  = ["plots//patann-a-vs-hnsw-glove.png";
     "plots//patann-a-vs-annoy-glove.png";
     "plots//patann-a-vs-hnsw-glove.png"]
  ∧ Plot.save_all written ∅ !! "plots//patann-a-vs-hnsw-glove.png"
    = Some (Sample.drawing Sample.sample_runs false "linear" "linear"
              "k-nn" "qps")
  ∧ size (dom (Plot.save_all written ∅)) = 2%nat.
Proof. split; [reflexivity|]. split; [reflexivity|]. by vm_compute. Qed.


(** Invocations that raise inside [create_plot]: an x scale that is no
    number after its [a], an empty one, one that matplotlib does not know.
    With [--algo] the first comparison plot raises, and nothing is saved. *)
Example plot_with_unaccepted_x_scale :
  Sample.plot_of (Sample.with_x_scale "abc" (Sample.plot_args (Some "patann-a")))
    [Sample.untimed_run; Sample.timed_run]
  = ([], Raised (ValueError (NotAFloat "bc")))
  ∧ Sample.plot_of (Sample.with_x_scale "" (Sample.plot_args (Some "patann-a")))
      [Sample.untimed_run; Sample.timed_run]
    = ([], Raised IndexError)
  ∧ Sample.plot_of (Sample.with_x_scale "weird" (Sample.plot_args None))
      [Sample.untimed_run; Sample.timed_run]
    = ([], Raised (ValueError (UnknownScale "weird")))
  ∧ snd (Sample.plot_of (Sample.with_x_scale "a3" (Sample.plot_args None))
           [Sample.untimed_run; Sample.timed_run]) = Done.
Proof. repeat split. Qed.

(** An invocation that raises after it has saved a plot: [hnsw-a] has no
    line style, the comparison with the group [annoy] does not show it and
    is saved, the comparison with the group [hnsw] raises. *)
Example plot_stops_at_missing_line_style :
  fst <$> fst (Plot.main Sample.metrics Sample.float Sample.neg_mean_log
                 Sample.sorted_by unit Sample.float_of_string
                 Sample.known_scale Sample.savefig_ok
                 (Sample.plot_args (Some "patann-a"))
                 ["annoy-a"; "hnsw-a"; "patann-a"]
                 [("annoy-a", tt); ("patann-a", tt)] Sample.sample_runs)
  = ["plots//patann-a-vs-annoy-glove.png"]
  ∧ snd (Plot.main Sample.metrics Sample.float Sample.neg_mean_log
           Sample.sorted_by unit Sample.float_of_string
           Sample.known_scale Sample.savefig_ok
           (Sample.plot_args (Some "patann-a"))
           ["annoy-a"; "hnsw-a"; "patann-a"]
           [("annoy-a", tt); ("patann-a", tt)] Sample.sample_runs)
    = Raised (KeyError "hnsw-a").
Proof. split; reflexivity. Qed.

(** X2 on the comparison of the sample runs with the group [hnsw]. *)
Lemma comparison_plot_shows_algo_and_group_witness :
  ∃ base group,
    (base, group)
    ∈ Plot.grouped_algos (Plot.group_algorithms "patann-a" Sample.unique_algorithms)
    ∧ Some base
      ≠ Plot.args_group (Plot.group_algorithms "patann-a" Sample.unique_algorithms)
    ∧ "plots//patann-a-vs-hnsw-glove.png"
      = Plot.comparison_path (Sample.plot_args (Some "patann-a")) "patann-a" base
    ∧ ∀ known,
        known ∈ ["patann-a"; "hnsw-a"]
        ↔ known ∈ ["patann-a"; "hnsw-a"]
          ∧ (known = "patann-a" ∨ known ∈ group).
Proof.
  apply (comparison_plot_shows_algo_and_group Sample.metrics
    Sample.float Sample.neg_mean_log Sample.sorted_by unit
    Sample.float_of_string Sample.known_scale Sample.savefig_ok
    (Sample.plot_args (Some "patann-a")) "patann-a"
    (Plot.group_algorithms "patann-a" Sample.unique_algorithms)
    Sample.sample_runs Sample.linestyles
    "plots//patann-a-vs-hnsw-glove.png"
    (Sample.drawing
       (Plot.filter_results ["patann-a"; "hnsw-a"; "hnsw-b"] Sample.sample_runs)
       false "linear" "linear" "k-nn" "qps")).
  apply list_elem_of_here.
Defined.

(** X13 on the sample runs, on the logit scale: both limits are the one
    recall strictly between 0 and 1. *)
Lemma create_plot_clips_x_limits_witness :
  match Plot.xlim (Sample.drawing Sample.sample_runs false "logit" "linear"
                     "k-nn" "qps") with
  | Some (lo, hi) =>
      (0 <= lo ∧ hi <= 1)%Q
      ∧ ("logit" = "logit" → (0 < lo ∧ lo <= 1 ∧ 0 <= hi ∧ hi < 1)%Q)
      ∧ ("logit" ≠ "logit" →
         ∃ x0 x1, Metrics.lim (Sample.metrics "k-nn") = Some (x0, x1)
                  ∧ lo = Qmax x0 0 ∧ hi = Qmin x1 1)
  | None => "logit" ≠ "logit" ∧ Metrics.lim (Sample.metrics "k-nn") = None
  end.
Proof.
  exact (create_plot_clips_x_limits Sample.metrics
           Sample.float Sample.neg_mean_log Sample.sorted_by unit
           Sample.float_of_string Sample.known_scale Sample.savefig_ok
           Sample.sample_runs false "logit" "linear" "k-nn" "qps"
           "plots//glove.png" Sample.linestyles false _ eq_refl).
Defined.

(** X14 on the sample runs. *)
Lemma create_plot_draws_each_algorithm_once_witness :
  let fig :=
    Sample.drawing Sample.sample_runs true "linear" "linear" "k-nn" "qps" in
  Plot.label <$> Plot.curves fig ≡ₚ ["patann-a"; "hnsw-a"]
  ∧ Forall (fun c =>
              Plot.line c
              = Plot.coords
                  (Reducer.frontier_points
                     (Plot.pointset_of Sample.metrics Sample.sample_runs
                        "k-nn" "qps" (Plot.label c)))
              ∧ (is_Some (Plot.faded c) ↔ true = true)) (Plot.curves fig)
  ∧ (∀ algo, algo ∈ ["patann-a"; "hnsw-a"] → algo ∈ PyDict.keys Sample.linestyles)
  ∧ Plot.set_xscale Sample.float Sample.float_of_string Sample.known_scale
      "linear" = ret tt.
Proof.
  exact (create_plot_draws_each_algorithm_once Sample.metrics
           Sample.float Sample.neg_mean_log Sample.sorted_by unit
           Sample.float_of_string Sample.known_scale Sample.savefig_ok
           Sample.sample_runs true "linear" "linear" "k-nn" "qps"
           "plots//glove.png" Sample.linestyles false _ eq_refl).
Defined.

(** X15 on the sample runs: the line of [hnsw-a] in its comparison plot. *)
Lemma comparison_plot_repeats_lines_of_full_plot_witness :
  let c :=
    {| Plot.label := "hnsw-a"; Plot.line := [(1 # 2, 100)];
       Plot.faded := None |} in
  c ∈ Plot.curves (Sample.drawing Sample.sample_runs false "linear" "linear"
                     "k-nn" "qps")
  ∧ ∀ full, Sample.full_plot (Sample.plot_args (Some "patann-a")) = ret full →
      c ∈ Plot.curves full.
Proof.
  apply (comparison_plot_repeats_lines_of_full_plot Sample.metrics
    Sample.float Sample.neg_mean_log Sample.sorted_by unit
    Sample.float_of_string Sample.known_scale Sample.savefig_ok
    (Sample.plot_args (Some "patann-a")) "patann-a"
    (Plot.group_algorithms "patann-a" Sample.unique_algorithms)
    Sample.sample_runs Sample.linestyles
    "plots//patann-a-vs-hnsw-glove.png"
    (Sample.drawing
       (Plot.filter_results ["patann-a"; "hnsw-a"; "hnsw-b"] Sample.sample_runs)
       false "linear" "linear" "k-nn" "qps")).
  - apply list_elem_of_here.
  - apply list_elem_of_further, list_elem_of_here.
Defined.

(** *** plot.py: the output directory *)

Section DirectoryPath.

Import PlotDir.

Variable can_make : names → string → bool.

Local Abbreviation makedirs := (makedirs can_make).
Local Abbreviation directory_path := (directory_path can_make).

(** X16. [directory_path] returns the path with a slash added when the
    path is a directory or is not there and [os.makedirs] creates it, and
    the path is a directory afterwards.  It raises [ArgumentTypeError]
    exactly when the path is there and is not a directory, and ends on the
    [OSError] of [os.makedirs] exactly when the path is not there and
    cannot be created; in both cases nothing changes.  No regular file is
    touched, and a second call changes nothing and ends the same way. *)
Theorem directory_path_accepts_or_creates_directories (fs : names) (s : string) :
  let '(fs', r) := directory_path fs s in
  ((∃ msg, r = raise (ArgumentTypeError msg))
   ↔ s ∈ regular_files fs ∧ s ∉ directories fs)
  ∧ (r = raise (OSError s) ↔ path_exists fs s = false ∧ can_make fs s = false)
  ∧ (r = ret (s +:+ "/")
     ∨ r = raise (ArgumentTypeError ("'" +:+ s +:+ "' is not a directory"))
     ∨ r = raise (OSError s))
  ∧ (r = ret (s +:+ "/") → isdir fs' s = true)
  ∧ (path_exists fs s = true ∨ can_make fs s = false → fs' = fs)
  ∧ (path_exists fs s = false → can_make fs s = true →
     makedirs fs s = ret fs')
  ∧ regular_files fs' = regular_files fs
  ∧ directory_path fs' s = (fs', r).
Proof.
  assert (bool_decide (s ∈ {[s]} ∪ directories fs) = true) as Hnew.
  { apply bool_decide_eq_true, elem_of_union. left. by apply elem_of_singleton. }
  unfold PlotDir.directory_path, PlotDir.makedirs, path_exists, isdir.
  destruct (bool_decide (s ∈ directories fs)) eqn:Hd;
    destruct (bool_decide (s ∈ regular_files fs)) eqn:Hf;
    destruct (can_make fs s) eqn:Hmake;
    pose proof Hd as Hdir; pose proof Hf as Hfile;
    try apply bool_decide_eq_true in Hdir;
    try apply bool_decide_eq_false in Hdir;
    try apply bool_decide_eq_true in Hfile;
    try apply bool_decide_eq_false in Hfile;
    repeat (simpl; rewrite ?Hd, ?Hf, ?Hnew, ?Hmake);
    (split; [split; [by intros [? ?] | try (by intros [? ?]); eauto]|]);
    (split; [split; [try done; by intros [= ?] | try done; by intros [? ?]]|]);
    (split; [eauto|]);
    (split; [done|]);
    (split; [try done; by intros [?|?]|]);
    (split; [done|]);
    done.
Qed.

End DirectoryPath.

(** On a file system with the directory [plots] and the regular file
    [notes]: a directory is accepted, a new one is created, a regular file
    is refused, and the path without a name and a path under the regular
    file end on the error of [os.makedirs]. *)
Example sample_directory_paths :
  let fs := {| PlotDir.directories := {["plots"]};
               PlotDir.regular_files := {["notes"]} |} in
  map (fun s => snd (PlotDir.directory_path Sample.can_make fs s))
    ["plots"; "figures"; "notes"; ""; "notes/figures"]
  = [ret "plots/"; ret "figures/";
     raise (ArgumentTypeError "'notes' is not a directory");
     raise (OSError ""); raise (OSError "notes/figures")].
Proof. reflexivity. Qed.

(** *** The further properties on the sample data *)

(** X4 on the sample store. *)
Lemma export_rows_follow_datasets_witness :
  ∃ rowss,
    Forall2 (DataExport.yields nat string Sample.load_all_results
               Sample.get_dataset Sample.compute_metrics_all_runs false)
      ["glove-100-angular"; "empty-set"] rowss
    ∧ Sample.glove_rows = concat rowss
    ∧ (snd (Sample.export ["glove-100-angular"; "empty-set"]) = Done →
       ∀ first, head Sample.glove_rows = Some first →
         DataExport.files (fst (Sample.export ["glove-100-angular"; "empty-set"]))
         !! Sample.output
         = Some (map PStr (PyDict.keys first)
                 :: map (DataExport.to_row
                           (DataExport.mkDictWriter (PyDict.keys first)))
                        (concat rowss))).
Proof.
  apply (export_rows_follow_datasets nat string Sample.load_all_results
    Sample.get_dataset Sample.compute_metrics_all_runs false Sample.output
    Sample.can_open
    ["glove-100-angular"; "empty-set"] Sample.no_files Sample.glove_rows).
  reflexivity.
Defined.



(** X9 on the day of the sample exports. *)
Lemma get_date_str_is_yymmdd_witness :
  String.length (ExportPath.get_date_str FailingStore.today) = 6%nat
  ∧ Forall (fun c => (48 ≤ nat_of_ascii c ≤ 57)%nat)
      (String.list_ascii_of_string (ExportPath.get_date_str FailingStore.today))
  ∧ ∀ now', (ExportPath.month now' < 100)%nat → (ExportPath.day now' < 100)%nat →
      ExportPath.get_date_str FailingStore.today = ExportPath.get_date_str now' →
      (ExportPath.year FailingStore.today mod 100
       = ExportPath.year now' mod 100)%nat
      ∧ ExportPath.month FailingStore.today = ExportPath.month now'
      ∧ ExportPath.day FailingStore.today = ExportPath.day now'.
Proof.
  apply (get_date_str_is_yymmdd FailingStore.today); simpl; lia.
Defined.

(** The names the export gives its output file on that day. *)
Example sample_output_files :
  map (fun output => ExportPath.output_file output FailingStore.today)
    [None; Some ""; Some "out.csv"; Some "runs/out.csv"; Some "out";
     Some "/tmp/x.tar.gz"; Some ".hidden"]
  = ["reports/data-261104.csv"; "reports/data-261104.csv";
     "reports/out-261104.csv"; "runs/out-261104.csv"; "reports/out-261104";
     "/tmp/x.tar-261104.gz"; "reports/.hidden-261104"].
Proof. reflexivity. Qed.

(** *** data_export.py: the shape of the table *)



Section TableShape.

Import DataExport.

Variable run : Type.
Variable dataset : Type.
Variable load_all_results : string -> list run.
Variable get_dataset : string -> option dataset.
Variable compute_metrics_all_runs :
  dataset -> list run -> bool -> option (list record).
Variable recompute : bool.
Variable output : string.
Variable can_open : filesystem -> string -> bool.

Local Abbreviation collect :=
  (collect run dataset load_all_results get_dataset
     compute_metrics_all_runs recompute).
Local Abbreviation main :=
  (main run dataset load_all_results get_dataset
     compute_metrics_all_runs recompute output can_open).



End TableShape.


